(** * Evaluation pipeline, early stopping and training loops of [models.py]

    A shallow embedding of the Python module [src/models.py]:
    Python integers are [Z]; Python floats are idealised as exact rationals
    ([Qc], canonical so that numerical identity is Leibniz equality; rounding is
    outside the model); 1-D label tensors are [list Z]; a score tensor of shape
    [batch, num_classes] is the list of its rows; dictionaries are [gmap];
    a raised exception is the [Raise] case of [result]. *)

From Stdlib Require Import ZArith QArith Qcanon Lia.
From stdpp Require Import base numbers option list gmap strings fin_maps.

Local Open Scope Z_scope.

(** ** Exceptions *)

Inductive PyError : Type :=
  | ZeroDivisionError
  | UnboundLocalError
  | RuntimeError
  | TypeError
  | IndexError
  | AttributeError
  | ValueError.

Inductive result (A : Type) : Type :=
  | Ok (a : A)
  | Raise (e : PyError).
Arguments Ok {A} a.
Arguments Raise {A} e.

Global Instance result_ret : MRet result := @Ok.
Global Instance result_bind : MBind result := λ A B f m,
  match m with
  | Ok a => f a
  | Raise e => Raise e
  end.

Definition raises {A} (r : result A) : Prop :=
  match r with
  | Ok _ => False
  | Raise _ => True
  end.

Definition is_Ok {A} (r : result A) : bool :=
  match r with
  | Ok _ => true
  | Raise _ => false
  end.

Definition unwrap {A} (d : A) (r : result A) : A :=
  match r with
  | Ok a => a
  | Raise _ => d
  end.

(** ** Tensor primitives used by the module (PyTorch library functions) *)

(** [a.eq(b)] on 1-D tensors.  Shapes are broadcast: equal lengths compare
    position by position, a length-1 operand is expanded to the other length,
    anything else is a shape error. *)
Definition tensor_eq (a b : list Z) : result (list bool) :=
  if decide (length a = length b) then Ok (zip_with Z.eqb a b)
  else match a, b with
       | [x], _ => Ok (map (Z.eqb x) b)
       | _, [y] => Ok (map (λ x, Z.eqb x y) a)
       | _, _ => Raise RuntimeError
       end.

(** [t.sum().item()] on a boolean tensor. *)
Definition tensor_sum (t : list bool) : Z :=
  Z.of_nat (length (filter (λ b, b = true) t)).

(** ** ConfusionCounts: the [stats] dictionary *)

Record Stats : Type := mkStats {
  correct_total : Z;
  total_per_class : gmap Z Z;
  correct_per_class : gmap Z Z;
  wrong_predictions : gmap Z (list Z);
  predicted_as_class : gmap Z Z
}.

(** [d[k] += 1] on a [defaultdict(int)]. *)
Definition incr (d : gmap Z Z) (k : Z) : gmap Z Z :=
  <[k := default 0 (d !! k) + 1]> d.

(** [d[k].append(v)] on a [defaultdict(list)]. *)
Definition append_at (d : gmap Z (list Z)) (k v : Z) : gmap Z (list Z) :=
  <[k := default [] (d !! k) ++ [v]]> d.

(** [d.get(k, 0)] and [len(d.get(k, []))]: reads that never insert. *)
Definition get0 (d : gmap Z Z) (k : Z) : Z := default 0 (d !! k).
Definition get_len (d : gmap Z (list Z)) (k : Z) : Z :=
  Z.of_nat (length (default [] (d !! k))).

(** [sum(d.values())] and [sum(len(v) for v in d.values())]. *)
Definition sum_values (d : gmap Z Z) : Z :=
  map_fold (λ _ v acc, v + acc) 0 d.
Definition sum_lens (d : gmap Z (list Z)) : Z :=
  map_fold (λ _ v acc, Z.of_nat (length v) + acc) 0 d.

Definition _initialize_per_class_dict : Stats :=
  {| correct_total := 0;
     total_per_class := ∅;
     correct_per_class := ∅;
     wrong_predictions := ∅;
     predicted_as_class := ∅ |}.

(** Body of the [for true_label, pred_label in zip(y_true, y_pred)] loop. *)
Definition update_pair (stats : Stats) (pair : Z * Z) : Stats :=
  let '(true_label, pred_label) := pair in
  let total := incr (total_per_class stats) true_label in
  let predicted := incr (predicted_as_class stats) pred_label in
  if decide (true_label = pred_label) then
    {| correct_total := correct_total stats;
       total_per_class := total;
       correct_per_class := incr (correct_per_class stats) true_label;
       wrong_predictions := wrong_predictions stats;
       predicted_as_class := predicted |}
  else
    {| correct_total := correct_total stats;
       total_per_class := total;
       correct_per_class := correct_per_class stats;
       wrong_predictions := append_at (wrong_predictions stats) true_label pred_label;
       predicted_as_class := predicted |}.

Definition add_correct (stats : Stats) (n : Z) : Stats :=
  {| correct_total := correct_total stats + n;
     total_per_class := total_per_class stats;
     correct_per_class := correct_per_class stats;
     wrong_predictions := wrong_predictions stats;
     predicted_as_class := predicted_as_class stats |}.

(** The first statement may raise (shape error of [eq]); [zip] stops at the
    shorter of its two arguments. *)
Definition _update_per_class_dict (stats : Stats) (y_pred y_true : list Z)
  : result Stats :=
  matches ← tensor_eq y_pred y_true;
  let stats := add_correct stats (tensor_sum matches) in
  Ok (foldl update_pair stats (zip y_true y_pred)).

(** States reachable from the empty accumulator by updates with equal-length
    label sequences. *)
Inductive reachable : Stats → Prop :=
  | reachable_init : reachable _initialize_per_class_dict
  | reachable_update stats y_pred y_true stats' :
      reachable stats →
      length y_pred = length y_true →
      _update_per_class_dict stats y_pred y_true = Ok stats' →
      reachable stats'.


(** ** Score tensors and the ensemble ([get_models_predictions]) *)

(** A score tensor of shape [batch, num_classes], as the list of its rows. *)
Abbreviation Tensor := (list (list Qc)).

Definition tensor_shape (t : Tensor) : list nat := map length t.

Definition tensor_add (a b : Tensor) : Tensor := zip_with (zip_with Qcplus) a b.

Definition tensor_div (a : Tensor) (n : Qc) : Tensor :=
  map (map (λ x, (x / n)%Qc)) a.

(** [torch.stack]: needs at least one tensor, all of one shape. *)
Definition torch_stack (ts : list Tensor) : result (list Tensor) :=
  match ts with
  | [] => Raise RuntimeError
  | t :: rest =>
      if forallb (λ u, bool_decide (tensor_shape u = tensor_shape t)) rest
      then Ok ts else Raise RuntimeError
  end.

(** [torch.mean(stacked, dim=0)]: the sum over the stacked tensors divided by
    their number. *)
Definition torch_mean_dim0 (stacked : list Tensor) : Tensor :=
  match stacked with
  | [] => []
  | t :: rest =>
      tensor_div (foldl tensor_add t rest) (Qc_of_Z (Z.of_nat (length stacked)))
  end.

(** Index of the first maximal entry of a row, as [torch.argmax] does. *)
Fixpoint argmax_from (best : Qc) (best_i i : Z) (row : list Qc) : Z :=
  match row with
  | [] => best_i
  | x :: rest =>
      if decide (best < x)%Qc then argmax_from x i (i + 1) rest
      else argmax_from best best_i (i + 1) rest
  end.

Definition argmax_row (row : list Qc) : result Z :=
  match row with
  | [] => Raise IndexError
  | x :: rest => Ok (argmax_from x 0 1 rest)
  end.

(** [torch.argmax(t, dim=1)]. *)
Definition torch_argmax_dim1 (t : Tensor) : result (list Z) :=
  mapM argmax_row t.

(** ** The metrics engine ([compute_classification_metrics]) *)

(** Values stored in the returned dictionary. *)
Inductive Value : Type :=
  | VNum (q : Qc)
  | VDict (d : gmap Z Qc)
  | VLabels (l : list Z).

Abbreviation Metrics := (gmap string Value).

(** [a / b] with an integer divisor: raises on zero. *)
Definition py_div (a : Qc) (b : Z) : result Qc :=
  if decide (b = 0) then Raise ZeroDivisionError else Ok (a / Qc_of_Z b)%Qc.

(** The four counts read for class [i]. *)
Definition tp_of (correct_per_class : gmap Z Z) (i : Z) : Z :=
  get0 correct_per_class i.
Definition fn_of (wrong_predictions : gmap Z (list Z)) (i : Z) : Z :=
  get_len wrong_predictions i.
Definition fp_of (correct_per_class predicted_as_class : gmap Z Z) (i : Z) : Z :=
  get0 predicted_as_class i - tp_of correct_per_class i.

Definition rate (tp other : Z) : Qc :=
  if decide (0 < tp + other) then (Qc_of_Z tp / Qc_of_Z (tp + other))%Qc else 0%Qc.

Definition f1_of_rates (precision recall : Qc) : Qc :=
  if decide (0 < precision + recall)%Qc
  then (2 * precision * recall / (precision + recall))%Qc
  else 0%Qc.

Definition class_precision (correct_per_class predicted_as_class : gmap Z Z) (i : Z) : Qc :=
  rate (tp_of correct_per_class i) (fp_of correct_per_class predicted_as_class i).

Definition class_recall (correct_per_class : gmap Z Z)
    (wrong_predictions : gmap Z (list Z)) (i : Z) : Qc :=
  rate (tp_of correct_per_class i) (fn_of wrong_predictions i).

Definition class_f1 (correct_per_class : gmap Z Z)
    (wrong_predictions : gmap Z (list Z)) (predicted_as_class : gmap Z Z) (i : Z) : Qc :=
  f1_of_rates (class_precision correct_per_class predicted_as_class i)
              (class_recall correct_per_class wrong_predictions i).

(** Variables carried by the [for i in range(num_classes)] loop. *)
Record LoopVars : Type := mkLoopVars {
  precision_dict : gmap Z Qc;
  recall_dict : gmap Z Qc;
  f1_dict : gmap Z Qc;
  macro_f1_sum : Qc;
  weighted_f1_sum : Qc
}.

Definition loop_init : LoopVars :=
  {| precision_dict := ∅; recall_dict := ∅; f1_dict := ∅;
     macro_f1_sum := 0%Qc; weighted_f1_sum := 0%Qc |}.

Definition class_step (correct_per_class total_per_class : gmap Z Z)
    (wrong_predictions : gmap Z (list Z)) (predicted_as_class : gmap Z Z)
    (vars : LoopVars) (i : Z) : LoopVars :=
  let support := get0 total_per_class i in
  let precision := class_precision correct_per_class predicted_as_class i in
  let recall := class_recall correct_per_class wrong_predictions i in
  let f1_score := f1_of_rates precision recall in
  {| precision_dict := <[i := precision]> (precision_dict vars);
     recall_dict := <[i := recall]> (recall_dict vars);
     f1_dict := <[i := f1_score]> (f1_dict vars);
     macro_f1_sum := (macro_f1_sum vars + f1_score)%Qc;
     weighted_f1_sum := (weighted_f1_sum vars + f1_score * Qc_of_Z support)%Qc |}.

(** [sum] of a list of floats. *)
Definition sum_Qc (l : list Qc) : Qc := foldr Qcplus 0%Qc l.

Section Evaluation.

(** [sklearn.metrics.precision_score(..., average='macro')] and
    [recall_score(..., average='macro', zero_division=0.0)]: library
    routines, which may reject their input. *)
Variable precision_score : list Z → list Z → result Qc.
Variable recall_score : list Z → list Z → result Qc.

Definition compute_classification_metrics
    (correct_per_class total_per_class : gmap Z Z)
    (wrong_predictions : gmap Z (list Z)) (predicted_as_class : gmap Z Z)
    (y_true y_pred : list Z) (num_classes : Z) : result Metrics :=
  let total_samples := sum_values total_per_class in
  let vars :=
    foldl (class_step correct_per_class total_per_class
                      wrong_predictions predicted_as_class)
          loop_init (seqZ 0 num_classes) in
  macro_f1 ← py_div (macro_f1_sum vars) num_classes;
  let weighted_f1 :=
    if decide (0 < total_samples)
    then (weighted_f1_sum vars / Qc_of_Z total_samples)%Qc else 0%Qc in
  macro_precision ← precision_score y_true y_pred;
  macro_recall ← recall_score y_true y_pred;
  Ok (list_to_map
        [("per_class_precision", VDict (precision_dict vars));
         ("per_class_recall", VDict (recall_dict vars));
         ("per_class_f1", VDict (f1_dict vars));
         ("macro_precision", VNum macro_precision);
         ("macro_recall", VNum macro_recall);
         ("macro_f1", VNum macro_f1);
         ("weighted_f1", VNum weighted_f1)]).

(** *** Models, data loaders and [test_model]

    [dataset_len] is [len(test_loader.dataset)]. *)

Variable Data : Type.

(** A network: its forward pass and its [num_classes] attribute, which
    [SmallNetwork] does not define. *)
Record Model : Type := mkModel {
  forward : Data → Tensor;
  num_classes_attr : option Z
}.

Record Sample : Type := mkSample { image : Data; label : list Z }.

Record DataLoader : Type := mkLoader {
  batches : list Sample;
  dataset_len : Z
}.

(** [compute_fn] is the metrics routine handed in by the caller. *)
Definition _finalize_metrics (stats : Stats) (y_true_all y_pred_all : list Z)
    (test_loader : DataLoader)
    (compute_fn : gmap Z Z → gmap Z Z → gmap Z (list Z) → gmap Z Z →
                  list Z → list Z → Z → result Metrics)
    (num_classes : Z) : result Metrics :=
  ratio ← py_div (Qc_of_Z (correct_total stats)) (dataset_len test_loader);
  let overall_accuracy := (ratio * Qc_of_Z 100)%Qc in
  metrics ← compute_fn (correct_per_class stats) (total_per_class stats)
                       (wrong_predictions stats) (predicted_as_class stats)
                       y_true_all y_pred_all num_classes;
  let metrics := <["overall_accuracy" := VNum overall_accuracy]> metrics in
  let metrics := <["correct_labels" := VLabels y_true_all]> metrics in
  let metrics := <["predicted_labels" := VLabels y_pred_all]> metrics in
  Ok metrics.

Definition _ensure_model_list (models : Model + list Model) : list Model :=
  match models with
  | inl m => [m]
  | inr l => l
  end.

Definition get_models_predictions (models : list Model) (input_tensor : Data)
  : result Tensor :=
  let logits := map (λ model, forward model input_tensor) models in
  stacked ← torch_stack logits;
  Ok (torch_mean_dim0 stacked).

(** State of the loop over [test_loader]; [metrics] is unbound until the
    first batch has been processed. *)
Record TestVars : Type := mkTestVars {
  tv_stats : Stats;
  tv_y_true_all : list Z;
  tv_y_pred_all : list Z;
  tv_metrics : option Metrics
}.

Definition test_batch (models : list Model) (test_loader : DataLoader)
    (num_classes : Z) (vars : TestVars) (sample : Sample) : result TestVars :=
  let test_data := image sample in
  let test_label := label sample in
  logits ← get_models_predictions models test_data;
  y_pred_test ← torch_argmax_dim1 logits;
  stats ← _update_per_class_dict (tv_stats vars) y_pred_test test_label;
  let y_true_all := tv_y_true_all vars ++ test_label in
  let y_pred_all := tv_y_pred_all vars ++ y_pred_test in
  metrics ← _finalize_metrics stats y_true_all y_pred_all test_loader
              compute_classification_metrics num_classes;
  Ok {| tv_stats := stats; tv_y_true_all := y_true_all;
        tv_y_pred_all := y_pred_all; tv_metrics := Some metrics |}.

(** A [for] loop whose body may raise. *)
Fixpoint for_each {S A} (body : S → A → result S) (s : S) (l : list A)
  : result S :=
  match l with
  | [] => Ok s
  | x :: rest => s' ← body s x; for_each body s' rest
  end.

Definition test_model (models : Model + list Model) (test_loader : DataLoader)
    (verbose : bool) : result Metrics :=
  let models := _ensure_model_list models in
  model0 ← match models with [] => Raise IndexError | m :: _ => Ok m end;
  num_classes ← match num_classes_attr model0 with
                | None => Raise AttributeError
                | Some n => Ok n
                end;
  vars ← for_each (test_batch models test_loader num_classes)
           {| tv_stats := _initialize_per_class_dict; tv_y_true_all := [];
              tv_y_pred_all := []; tv_metrics := None |}
           (batches test_loader);
  (* the summary line printed under [verbose] reads [metrics] *)
  _ ← (if verbose
       then match tv_metrics vars with
            | None => Raise UnboundLocalError
            | Some _ => Ok tt
            end
       else Ok tt);
  match tv_metrics vars with
  | None => Raise UnboundLocalError
  | Some metrics => Ok metrics
  end.

End Evaluation.

Arguments mkModel {Data} forward num_classes_attr.
Arguments forward {Data} m _.
Arguments num_classes_attr {Data} m.
Arguments mkSample {Data} image label.
Arguments image {Data} s.
Arguments label {Data} s.
Arguments mkLoader {Data} batches dataset_len.
Arguments batches {Data} d.
Arguments dataset_len {Data} d.
Arguments _finalize_metrics {Data} stats y_true_all y_pred_all test_loader
  compute_fn num_classes.
Arguments _ensure_model_list {Data} models.
Arguments get_models_predictions {Data} models input_tensor.
Arguments test_batch precision_score recall_score {Data} models test_loader
  num_classes vars sample.
Arguments test_model precision_score recall_score {Data} models test_loader
  verbose.

(** *** Macro averages over label lists

    A rendering of the two library routines on integer label lists, used to run
    the examples: the labels are those occurring in either list, a label's
    rate is zero when its denominator is, and lists of different lengths are
    rejected. *)

Definition count_pairs (P : Z * Z → bool) (pairs : list (Z * Z)) : Z :=
  Z.of_nat (length (filter (λ p, P p = true) pairs)).

Definition label_tp (pairs : list (Z * Z)) (l : Z) : Z :=
  count_pairs (λ p, bool_decide (p.1 = l ∧ p.2 = l)) pairs.

Definition label_precision (pairs : list (Z * Z)) (l : Z) : Qc :=
  let tp := label_tp pairs l in
  rate tp (count_pairs (λ p, bool_decide (p.2 = l)) pairs - tp).

Definition label_recall (pairs : list (Z * Z)) (l : Z) : Qc :=
  let tp := label_tp pairs l in
  rate tp (count_pairs (λ p, bool_decide (p.1 = l)) pairs - tp).

Definition macro_average (per_label : list (Z * Z) → Z → Qc)
    (y_true y_pred : list Z) : result Qc :=
  if decide (length y_true = length y_pred) then
    let labels := remove_dups (y_true ++ y_pred) in
    py_div (sum_Qc (map (per_label (zip y_true y_pred)) labels))
           (Z.of_nat (length labels))
  else Raise ValueError.

Definition macro_precision_score := macro_average label_precision.
Definition macro_recall_score := macro_average label_recall.

(** ** Early stopping *)

Module EarlyStopping.
Section EarlyStopping.

(** [Model] is the network object handed to the stopper and [StateDict] the
    object its [state_dict()] method returns for the network as it is at that
    call; [import_state] is the part of [load_state_dict] that loads an actual
    state dictionary into a network (it may reject one whose keys do not fit).
    The stopper stores what [state_dict()] returns and never copies it or
    looks inside it: in PyTorch its tensors share storage with the network's
    parameters, so what a retained snapshot holds follows later in-place
    updates of that network. *)
Variables Model StateDict : Type.
Variable state_dict : Model → StateDict.
Variable import_state : Model → StateDict → result Model.

(** [model.load_state_dict(arg)]: an argument that is not a mapping, such as
    [None], is rejected with a [TypeError] before the network is touched. *)
Definition load_state_dict (model : Model) (arg : option StateDict)
  : result Model :=
  match arg with
  | None => Raise TypeError
  | Some sd => import_state model sd
  end.

Record t : Type := mk {
  patience : Z;
  delta : Qc;
  best_score : option Qc;
  early_stop : bool;
  counter : Z;
  best_model_state : option StateDict;
  epoch_stop : Z
}.

Definition __init__ (patience : Z) (delta : Qc) : t :=
  {| patience := patience;
     delta := delta;
     best_score := None;
     early_stop := false;
     counter := 0;
     best_model_state := None;
     epoch_stop := 0 |}.

Definition __call__ (self : t) (val_loss : Qc) (model : Model) (epoch : Z) : t :=
  let score := (- val_loss)%Qc in
  match best_score self with
  | None =>
      {| patience := patience self; delta := delta self;
         best_score := Some score;
         early_stop := early_stop self;
         counter := counter self;
         best_model_state := Some (state_dict model);
         epoch_stop := epoch_stop self |}
  | Some best =>
      if decide (score < best + delta self)%Qc then
        let counter' := counter self + 1 in
        if decide (patience self ≤ counter') then
          {| patience := patience self; delta := delta self;
             best_score := best_score self;
             early_stop := true;
             counter := counter';
             best_model_state := best_model_state self;
             epoch_stop := epoch - patience self |}
        else
          {| patience := patience self; delta := delta self;
             best_score := best_score self;
             early_stop := early_stop self;
             counter := counter';
             best_model_state := best_model_state self;
             epoch_stop := epoch_stop self |}
      else
        {| patience := patience self; delta := delta self;
           best_score := Some score;
           early_stop := early_stop self;
           counter := 0;
           best_model_state := Some (state_dict model);
           epoch_stop := epoch_stop self |}
  end.

Definition load_best_model (self : t) (model : Model) : result Model :=
  load_state_dict model (best_model_state self).

(** A run of observations [(val_loss, model, epoch)], oldest first. *)
Definition observe_all (self : t) (obs : list (Qc * Model * Z)) : t :=
  foldl (λ s '(val_loss, model, epoch), __call__ s val_loss model epoch) self obs.

End EarlyStopping.

Arguments mk {StateDict}.
Arguments patience {StateDict} t.
Arguments delta {StateDict} t.
Arguments best_score {StateDict} t.
Arguments early_stop {StateDict} t.
Arguments counter {StateDict} t.
Arguments best_model_state {StateDict} t.
Arguments epoch_stop {StateDict} t.
Arguments __init__ {StateDict} patience delta.
Arguments __call__ {Model StateDict} state_dict self val_loss model epoch.
Arguments load_state_dict {Model StateDict} import_state model arg.
Arguments load_best_model {Model StateDict} import_state self model.
Arguments observe_all {Model StateDict} state_dict self obs.

End EarlyStopping.

(** ** Training and validation passes *)

Section Loops.

(** The collaborators of a pass: the network with its forward pass, the loss
    function, the optimizer (one [loss.backward(); optimizer.step()] turns a
    network into the next one) and [len(data)]. *)
Variables Data Net : Type.
Variable forward : Net → Data → Tensor.
Variable loss_function : Tensor → list Z → Qc.
Variable optimizer_step : Net → Data → list Z → Net.
Variable data_len : Data → Z.

Record Batch : Type := mkBatch { b_image : Data; b_label : list Z }.

Record Loader : Type := mkTrainLoader {
  l_batches : list Batch;
  l_dataset_len : Z
}.

(** [preds = y_pred.argmax(dim=1, keepdim=True)] then
    [preds.eq(label.view_as(preds)).sum().item()]; [view_as] needs as many
    labels as predictions. *)
Definition count_corrects (y_pred : Tensor) (label : list Z) : result Z :=
  preds ← torch_argmax_dim1 y_pred;
  if decide (length label = length preds)
  then Ok (tensor_sum (zip_with Z.eqb preds label))
  else Raise RuntimeError.

(** [sum(losses) / len(losses)]. *)
Definition average (losses : list Qc) : result Qc :=
  py_div (sum_Qc losses) (Z.of_nat (length losses)).

Record TrainVars : Type := mkTrainVars {
  tr_model : Net;
  tr_losses : list Qc;
  tr_corrects : Z;
  tr_batch_idx : Z
}.

Definition train_batch (train_loader : Loader) (save : bool) (verbose : Z)
    (vars : TrainVars) (sample : Batch) : result TrainVars :=
  let data := b_image sample in
  let label := b_label sample in
  let batch_idx := tr_batch_idx vars in
  let y_pred := forward (tr_model vars) data in
  let loss := loss_function y_pred label in
  let losses := if save then tr_losses vars ++ [loss] else tr_losses vars in
  let model := optimizer_step (tr_model vars) data label in
  c ← count_corrects y_pred label;
  let corrects := tr_corrects vars + c in
  (* progress line every tenth batch: its percentage divides by the dataset size *)
  _ ← (if decide (1 ≤ verbose) then
         if decide (batch_idx `mod` 10 = 0) then
           py_div (Qc_of_Z (100 * batch_idx * data_len data))
                  (l_dataset_len train_loader)
         else Ok 0%Qc
       else Ok 0%Qc);
  Ok {| tr_model := model; tr_losses := losses; tr_corrects := corrects;
        tr_batch_idx := batch_idx + 1 |}.

Definition train_model (model : Net) (train_loader : Loader) (epoch : Z)
    (save : bool) (verbose : Z) : result (Qc * Qc) :=
  vars ← for_each (train_batch train_loader save verbose)
           {| tr_model := model; tr_losses := []; tr_corrects := 0;
              tr_batch_idx := 0 |}
           (l_batches train_loader);
  avg_loss ← average (tr_losses vars);
  overall_accuracy ← py_div (Qc_of_Z (100 * tr_corrects vars))
                            (l_dataset_len train_loader);
  if save then Ok (avg_loss, overall_accuracy) else Ok (0%Qc, 0%Qc).

(** [avg_loss], [size] and [accuracy] are bound inside the loop body only. *)
Record ValidVars : Type := mkValidVars {
  va_losses : list Qc;
  va_corrects : Z;
  va_avg_loss : option Qc;
  va_accuracy : option Qc
}.

Definition validate_batch (model : Net) (valid_loader : Loader) (save : bool)
    (vars : ValidVars) (sample : Batch) : result ValidVars :=
  let data := b_image sample in
  let label := b_label sample in
  let y_pred := forward model data in
  let loss := loss_function y_pred label in
  let val_losses := if save then va_losses vars ++ [loss] else va_losses vars in
  c ← count_corrects y_pred label;
  let corrects := va_corrects vars + c in
  avg_loss ← average val_losses;
  let size := l_dataset_len valid_loader in
  accuracy ← py_div (Qc_of_Z (100 * corrects)) size;
  Ok {| va_losses := val_losses; va_corrects := corrects;
        va_avg_loss := Some avg_loss; va_accuracy := Some accuracy |}.

Definition validate_model (model : Net) (valid_loader : Loader)
    (save : bool) (verbose : bool) : result (Qc * Qc) :=
  vars ← for_each (validate_batch model valid_loader save)
           {| va_losses := []; va_corrects := 0;
              va_avg_loss := None; va_accuracy := None |}
           (l_batches valid_loader);
  (* the summary line printed under [verbose] reads [avg_loss] *)
  _ ← (if verbose
       then match va_avg_loss vars with
            | None => Raise UnboundLocalError
            | Some _ => Ok tt
            end
       else Ok tt);
  if save then
    match va_avg_loss vars, va_accuracy vars with
    | Some avg_loss, Some accuracy => Ok (avg_loss, accuracy)
    | _, _ => Raise UnboundLocalError
    end
  else Ok (0%Qc, 0%Qc).

End Loops.

Arguments mkBatch {Data} b_image b_label.
Arguments b_image {Data} b.
Arguments b_label {Data} b.
Arguments mkTrainLoader {Data} l_batches l_dataset_len.
Arguments l_batches {Data} l.
Arguments l_dataset_len {Data} l.
Arguments mkTrainVars {Net} tr_model tr_losses tr_corrects tr_batch_idx.
Arguments tr_model {Net} t.
Arguments tr_losses {Net} t.
Arguments tr_corrects {Net} t.
Arguments tr_batch_idx {Net} t.
Arguments train_batch {Data Net} forward loss_function optimizer_step data_len
  train_loader save verbose vars sample.
Arguments validate_batch {Data Net} forward loss_function
  model valid_loader save vars sample.
Arguments train_model {Data Net} forward loss_function optimizer_step data_len
  model train_loader epoch save verbose.
Arguments validate_model {Data Net} forward loss_function
  model valid_loader save verbose.

(** ** The network classes, at the level of tensor shapes

    What the constructors build and how the [forward] methods chain the
    layers, on the shape [[N; C; H; W]] of a batched input.  The layers are
    the library's; each is given by its constructor arguments (kernels are
    square) and by the library's shape rule. *)

Abbreviation Shape := (list Z).

Inductive Layer : Type :=
  | Conv2d (in_channels out_channels kernel_size stride padding : Z)
  | BatchNorm2d (num_features : Z)
  | ReLU
  | MaxPool2d (kernel_size stride padding : Z)
  | AdaptiveAvgPool2d (output_h output_w : Z)
  | Flatten
  | Linear (in_features out_features : Z).

(** Size left by a sliding window: [floor((n + 2p - k) / s) + 1]. *)
Definition window_out (n kernel stride padding : Z) : Z :=
  (n + 2 * padding - kernel) `div` stride + 1.

(** [torch.flatten(x, 1)] and [nn.Flatten()]: all but the batch dimension are
    merged. *)
Definition flatten_from_1 (x : Shape) : result Shape :=
  match x with
  | [] | [_] => Raise IndexError
  | n :: rest => Ok [n; foldr Z.mul 1 rest]
  end.

(** [out.view(out.size(0), -1)]: the same merge, which cannot infer [-1] for a
    tensor without elements. *)
Definition view_batch_rest (x : Shape) : result Shape :=
  match x with
  | [] => Raise IndexError
  | n :: rest =>
      if decide (n * foldr Z.mul 1 rest = 0) then Raise RuntimeError
      else Ok [n; foldr Z.mul 1 rest]
  end.

(** Shape rule of one layer.  A convolution needs the channel count it was
    built for and a padded input no smaller than its kernel; a pooling needs a
    window that fits at least once; batch normalisation in training mode
    refuses a single value per channel; a linear layer needs its input
    features.  The rules are those of batched input: the statements below are
    about inputs [[N; C; H; W]] only, and the layers then see shapes of rank 4
    or, after the merge, of rank 2. *)
Definition layer_shape (training : bool) (layer : Layer) (x : Shape)
  : result Shape :=
  match layer, x with
  | Conv2d cin cout k s p, [n; c; h; w] =>
      if decide (c = cin ∧ k ≤ h + 2 * p ∧ k ≤ w + 2 * p)
      then Ok [n; cout; window_out h k s p; window_out w k s p]
      else Raise RuntimeError
  | BatchNorm2d f, [n; c; h; w] =>
      if decide (c = f) then
        if training && bool_decide (n * h * w = 1) then Raise ValueError
        else Ok x
      else Raise RuntimeError
  | ReLU, _ => Ok x
  | MaxPool2d k s p, [n; c; h; w] =>
      if decide (1 ≤ window_out h k s p ∧ 1 ≤ window_out w k s p)
      then Ok [n; c; window_out h k s p; window_out w k s p]
      else Raise RuntimeError
  | AdaptiveAvgPool2d oh ow, [n; c; h; w] =>
      if decide (0 < h ∧ 0 < w) then Ok [n; c; oh; ow] else Raise RuntimeError
  | Flatten, _ => flatten_from_1 x
  | Linear fin fout, [n; f] =>
      if decide (f = fin) then Ok [n; fout] else Raise RuntimeError
  | _, _ => Raise RuntimeError
  end.

(** [nn.Sequential]: the layers one after the other; an empty one returns its
    input. *)
Definition sequential (training : bool) (layers : list Layer) (x : Shape)
  : result Shape :=
  for_each (λ out layer, layer_shape training layer out) x layers.

(** [out += other]: [other] must broadcast to the shape of [out]. *)
Definition add_inplace (out other : Shape) : result Shape :=
  if decide (length other ≤ length out)%nat then
    if forallb (λ '(o, d), bool_decide (d = o ∨ d = 1))
               (zip (reverse out) (reverse other))
    then Ok out else Raise RuntimeError
  else Raise RuntimeError.

Module BasicBlock.

Record t : Type := mk {
  conv1 : Layer;
  bn1 : Layer;
  relu : Layer;
  conv2 : Layer;
  bn2 : Layer;
  shortcut : list Layer
}.

Definition __init__ (in_channels out_channels stride : Z) : t :=
  {| conv1 := Conv2d in_channels out_channels 3 stride 1;
     bn1 := BatchNorm2d out_channels;
     relu := ReLU;
     conv2 := Conv2d out_channels out_channels 3 1 1;
     bn2 := BatchNorm2d out_channels;
     shortcut :=
       if decide (stride ≠ 1 ∨ in_channels ≠ out_channels)
       then [Conv2d in_channels out_channels 1 stride 0;
             BatchNorm2d out_channels]
       else [] |}.

Definition forward (training : bool) (self : t) (x : Shape) : result Shape :=
  out ← layer_shape training (conv1 self) x;
  out ← layer_shape training (bn1 self) out;
  out ← layer_shape training (relu self) out;
  out ← layer_shape training (conv2 self) out;
  out ← layer_shape training (bn2 self) out;
  other ← sequential training (shortcut self) x;
  out ← add_inplace out other;
  layer_shape training (relu self) out.

End BasicBlock.

Module ResNet18.

Record t : Type := mk {
  num_classes : Z;
  in_channels : Z;
  conv1 : Layer;
  bn1 : Layer;
  relu : Layer;
  maxpool : Layer;
  layer1 : list BasicBlock.t;
  layer2 : list BasicBlock.t;
  layer3 : list BasicBlock.t;
  layer4 : list BasicBlock.t;
  avgpool : Layer;
  fc : Layer
}.

(** [self.in_channels] is read and then overwritten for every block built;
    the function returns the blocks with its last value. *)
Definition _make_layer (in_channels : Z) (block : Z → Z → Z → BasicBlock.t)
    (out_channels n_blocks stride : Z) : list BasicBlock.t * Z :=
  let strides := [stride] ++ replicate (Z.to_nat (n_blocks - 1)) 1 in
  foldl (λ '(layers, in_channels) stride,
           (layers ++ [block in_channels out_channels stride], out_channels))
        ([], in_channels) strides.

Definition __init__ (num_classes : Z) : t :=
  let in_channels := 64 in
  let '(layer1, in_channels) :=
    _make_layer in_channels BasicBlock.__init__ 64 2 1 in
  let '(layer2, in_channels) :=
    _make_layer in_channels BasicBlock.__init__ 128 2 2 in
  let '(layer3, in_channels) :=
    _make_layer in_channels BasicBlock.__init__ 256 2 2 in
  let '(layer4, in_channels) :=
    _make_layer in_channels BasicBlock.__init__ 512 2 2 in
  {| num_classes := num_classes;
     in_channels := in_channels;
     conv1 := Conv2d 3 64 7 2 1;
     bn1 := BatchNorm2d 64;
     relu := ReLU;
     maxpool := MaxPool2d 3 2 1;
     layer1 := layer1; layer2 := layer2; layer3 := layer3; layer4 := layer4;
     avgpool := AdaptiveAvgPool2d 1 1;
     fc := Linear 512 num_classes |}.

Definition blocks (training : bool) (layer : list BasicBlock.t) (x : Shape)
  : result Shape :=
  for_each (λ out block, BasicBlock.forward training block out) x layer.

Definition forward (training : bool) (self : t) (x : Shape) : result Shape :=
  out ← layer_shape training (conv1 self) x;
  out ← layer_shape training (bn1 self) out;
  out ← layer_shape training (relu self) out;
  out ← layer_shape training (maxpool self) out;
  out ← blocks training (layer1 self) out;
  out ← blocks training (layer2 self) out;
  out ← blocks training (layer3 self) out;
  out ← blocks training (layer4 self) out;
  out ← layer_shape training (avgpool self) out;
  out ← view_batch_rest out;
  layer_shape training (fc self) out.

End ResNet18.

Module SmallNetwork.

Record t : Type := mk {
  conv1 : Layer; act1 : Layer;
  conv2 : Layer; act2 : Layer;
  pool1 : Layer;
  conv3 : Layer; act3 : Layer;
  pool2 : Layer;
  flat : Layer;
  fc1 : Layer; fc2 : Layer; fc3 : Layer
}.

Definition __init__ : t :=
  {| conv1 := Conv2d 3 16 3 1 0; act1 := ReLU;
     conv2 := Conv2d 16 64 5 1 0; act2 := ReLU;
     pool1 := MaxPool2d 2 1 0;
     conv3 := Conv2d 64 128 3 1 0; act3 := ReLU;
     pool2 := MaxPool2d 2 2 0;
     flat := Flatten;
     fc1 := Linear 10368 6400;
     fc2 := Linear 6400 1280;
     fc3 := Linear 1280 7 |}.

(** [F.relu] and [F.log_softmax] keep the shape of their argument. *)
Definition forward (training : bool) (self : t) (x : Shape) : result Shape :=
  x ← layer_shape training (conv1 self) x;
  x ← layer_shape training (act1 self) x;
  x ← layer_shape training (conv2 self) x;
  x ← layer_shape training (act2 self) x;
  x ← layer_shape training (pool1 self) x;
  x ← layer_shape training (conv3 self) x;
  x ← layer_shape training (act3 self) x;
  x ← layer_shape training (pool2 self) x;
  x ← flatten_from_1 x;
  x ← layer_shape training (fc1 self) x;
  x ← layer_shape training ReLU x;
  x ← layer_shape training (fc2 self) x;
  x ← layer_shape training ReLU x;
  x ← layer_shape training (fc3 self) x;
  Ok x.

End SmallNetwork.

(** * Notions used in the statements, and worked examples *)

(** Sum of a measure of the values of a dictionary. *)
Definition sum_with {A} (g : A → Z) (m : gmap Z A) : Z :=
  map_fold (λ _ v acc, g v + acc) 0 m.

(** What the accounting invariant balances: ground-truth occurrences against
    misclassifications plus a count of agreeing pairs. *)
Definition balance (stats : Stats) : Z :=
  sum_values (total_per_class stats) - sum_lens (wrong_predictions stats).

Definition agree (pair : Z * Z) : bool := bool_decide (pair.1 = pair.2).

Definition count_agree (pairs : list (Z * Z)) : Z :=
  Z.of_nat (length (filter (λ p, agree p = true) pairs)).

(** The true positives of a class are counted among its predictions and among
    its ground-truth occurrences. *)
Definition counts_ok (stats : Stats) : Prop :=
  ∀ i, 0 ≤ get0 (correct_per_class stats) i
       ∧ get0 (correct_per_class stats) i ≤ get0 (predicted_as_class stats) i
       ∧ get0 (correct_per_class stats) i ≤ get0 (total_per_class stats) i.

(** A two-batch pass used in the worked examples. *)
Definition stats_batch1 : Stats :=
  foldl update_pair (add_correct _initialize_per_class_dict 2)
        (zip [0; 0; 1] [0; 1; 1]).

Definition stats_batch2 : Stats :=
  foldl update_pair (add_correct stats_batch1 2) (zip [2; 2; 2] [2; 0; 2]).

(** The labels of the two-batch pass. *)
Definition pass_true : list Z := [0; 0; 1; 2; 2; 2].
Definition pass_pred : list Z := [0; 1; 1; 2; 0; 2].

(** The ten keys of the returned dictionary. *)
Definition metric_keys : gset string :=
  list_to_set
    ["per_class_precision"; "per_class_recall"; "per_class_f1";
     "macro_precision"; "macro_recall"; "macro_f1"; "weighted_f1";
     "overall_accuracy"; "correct_labels"; "predicted_labels"].

Definition is_dict (metrics : Metrics) (key : string) : Prop :=
  ∃ d, metrics !! key = Some (VDict d).
Definition is_number (metrics : Metrics) (key : string) : Prop :=
  ∃ q, metrics !! key = Some (VNum q).

(** The return contract, for given ground-truth and predicted label lists. *)
Definition return_contract (metrics : Metrics) (y_true_all y_pred_all : list Z)
  : Prop :=
  dom metrics = metric_keys
  ∧ is_dict metrics "per_class_precision"
  ∧ is_dict metrics "per_class_recall"
  ∧ is_dict metrics "per_class_f1"
  ∧ is_number metrics "macro_precision"
  ∧ is_number metrics "macro_recall"
  ∧ is_number metrics "macro_f1"
  ∧ is_number metrics "weighted_f1"
  ∧ is_number metrics "overall_accuracy"
  ∧ metrics !! "correct_labels" = Some (VLabels y_true_all)
  ∧ metrics !! "predicted_labels" = Some (VLabels y_pred_all).

(** The labels the ensemble predicts for one batch. *)
Definition predict {Data} (models : list (Model Data)) (batch : Data)
  : result (list Z) :=
  get_models_predictions models batch ≫= torch_argmax_dim1.

(** A worked pass: three classes, six samples in two batches.  The example
    network scores the class written in its input with 1 and the others with
    0, so that the batch [[0; 1; 1]] is predicted as [0; 1; 1]. *)
Definition one_hot (n k : Z) : list Qc :=
  map (λ i, if decide (i = k) then 1%Qc else 0%Qc) (seqZ 0 n).

Definition example_model : Model (list Z) :=
  mkModel (λ batch, map (one_hot 3) batch) (Some 3).

Definition example_loader : DataLoader (list Z) :=
  mkLoader [mkSample [0; 1; 1] [0; 0; 1]; mkSample [2; 0; 2] [2; 2; 2]] 6.

Definition empty_loader : DataLoader (list Z) := mkLoader [] 0.

Definition example_metrics : Metrics :=
  unwrap ∅ (test_model macro_precision_score macro_recall_score
              (inl example_model) example_loader false).

(** The best score and the snapshot are recorded together. *)
Definition recorded {StateDict} (self : EarlyStopping.t StateDict) : Prop :=
  is_Some (EarlyStopping.best_score self)
  ∧ is_Some (EarlyStopping.best_model_state self).

Definition fresh {StateDict} (self : EarlyStopping.t StateDict) : Prop :=
  EarlyStopping.best_score self = None
  ∧ EarlyStopping.best_model_state self = None.

(** Example networks for the stopper: a vector of integer weights.  The state
    dictionary hands out the vector, and a vector is loaded into a network
    with as many weights. *)
Definition vector_state_dict (m : list Z) : list Z := m.

Definition vector_import (m sd : list Z) : result (list Z) :=
  if decide (length m = length sd) then Ok sd else Raise RuntimeError.

Definition vector_fits (m sd : list Z) : Prop := length m = length sd.

(** The four observations of the scenario, with the weights the network has
    when it is handed to the stopper. *)
Definition scenario : list (Qc * list Z * Z) :=
  [(1%Qc, [10], 0); (Q2Qc (12 # 10), [11], 1);
   (Q2Qc (13 # 10), [12], 2); (Q2Qc (9 # 10), [13], 3)].

(** The losses a training pass meets, batch after batch, the network being
    updated in between. *)
Fixpoint batch_losses {Data Net} (forward : Net → Data → Tensor)
    (loss_function : Tensor → list Z → Qc)
    (optimizer_step : Net → Data → list Z → Net)
    (model : Net) (samples : list (Batch Data)) : list Qc :=
  match samples with
  | [] => []
  | s :: rest =>
      loss_function (forward model (b_image s)) (b_label s)
      :: batch_losses forward loss_function optimizer_step
           (optimizer_step model (b_image s) (b_label s)) rest
  end.

(** A one-batch pass: the example network of the evaluation, a constant loss
    of one half, an optimizer that leaves the network as it is. *)
Definition example_forward (_ : unit) (batch : list Z) : Tensor :=
  map (one_hot 3) batch.
Definition example_loss (_ : Tensor) (_ : list Z) : Qc := Q2Qc (1 # 2).
Definition example_step (net : unit) (_ : list Z) (_ : list Z) : unit := net.
Definition example_len (batch : list Z) : Z := Z.of_nat (length batch).

Definition example_train_loader : Loader (list Z) :=
  mkTrainLoader [mkBatch [0; 1; 1] [0; 0; 1]] 3.

(** ** Further notions: the accumulator

    States reached from the empty accumulator by any updates that did not
    raise, whatever the lengths of their arguments. *)
Inductive accumulated : Stats → Prop :=
  | accumulated_init : accumulated _initialize_per_class_dict
  | accumulated_update stats y_pred y_true stats' :
      accumulated stats →
      _update_per_class_dict stats y_pred y_true = Ok stats' →
      accumulated stats'.

(** [d.get(k, [])]. *)
Definition get_list (d : gmap Z (list Z)) (k : Z) : list Z := default [] (d !! k).

(** Number of pairs [(true, predicted)] of a batch satisfying [P]. *)
Definition count_where (P : Z * Z → Prop) `{∀ p, Decision (P p)}
    (pairs : list (Z * Z)) : Z :=
  Z.of_nat (length (filter P pairs)).

(** The predictions made, in order, for the samples of class [i] that were
    misclassified. *)
Definition mispredictions_of (i : Z) (pairs : list (Z * Z)) : list Z :=
  snd <$> filter (λ p, p.1 = i ∧ p.2 ≠ i) pairs.

(** ** Further notions: the metrics engine *)

(** [sum(f(i) for i in classes)] over integer counts. *)
Definition sum_over (f : Z → Z) (classes : list Z) : Z :=
  foldr (λ i acc, f i + acc) 0 classes.

(** ** Further notions: the evaluation entry point *)

(** The two network classes as [test_model] sees them: [SmallNetwork.__init__]
    sets no [num_classes] attribute, [ResNet18.__init__] stores its argument
    (7 by default). *)
Definition small_network_object {Data} (forward : Data → Tensor) : Model Data :=
  mkModel forward None.

Definition resnet18_object {Data} (forward : Data → Tensor) (num_classes : Z)
  : Model Data :=
  mkModel forward (Some num_classes).

(** A model as the ensemble uses it: its forward pass alone. *)
Definition without_attribute {Data} (m : Model Data) : Model Data :=
  mkModel (forward m) None.

(** What ties the loop variables of [test_model] together when every batch has
    as many labels as predictions: the label lists have one length,
    [correct_total] counts their agreeing positions, and the last [metrics]
    reports it against the dataset size. *)
Definition accuracy_invariant {Data} (test_loader : DataLoader Data)
    (vars : TestVars) : Prop :=
  length (tv_y_true_all vars) = length (tv_y_pred_all vars)
  ∧ correct_total (tv_stats vars)
    = count_agree (zip (tv_y_true_all vars) (tv_y_pred_all vars))
  ∧ ∀ metrics,
      tv_metrics vars = Some metrics →
      metrics !! "overall_accuracy"
      = Some (VNum (Qc_of_Z (correct_total (tv_stats vars))
                    / Qc_of_Z (dataset_len test_loader) * Qc_of_Z 100)%Qc).

(** A batch has as many labels as the ensemble predicts for it. *)
Definition well_sized {Data} (models : list (Model Data)) (sample : Sample Data)
  : Prop :=
  ∀ preds, predict models (image sample) = Ok preds →
           length preds = length (label sample).

(** ** Further notions: the stopper *)

(** The loss of an observation [(val_loss, model, epoch)]. *)
Definition obs_loss {Model} (o : Qc * Model * Z) : Qc := o.1.1.

(** An observation that does not improve on the best score [best] by the
    margin [delta]. *)
Definition no_improvement {Model} (best delta : Qc) (o : Qc * Model * Z) : Prop :=
  (- obs_loss o < best + delta)%Qc.

(** ** Further notions: the passes *)

(** The losses a validation pass meets, the network staying as it is. *)
Definition valid_losses {Data Net} (forward : Net → Data → Tensor)
    (loss_function : Tensor → list Z → Qc)
    (model : Net) (samples : list (Batch Data)) : list Qc :=
  map (λ s, loss_function (forward model (b_image s)) (b_label s)) samples.

(** Number of labels held by the batches of a loader. *)
Definition labels_in {Data} (samples : list (Batch Data)) : Z :=
  foldr (λ s acc, Z.of_nat (length (b_label s)) + acc) 0 samples.

(** The loop variables of [train_model] and of [validate_model] before the
    first batch. *)
Definition train_start {Net} (model : Net) : TrainVars Net :=
  {| tr_model := model; tr_losses := []; tr_corrects := 0; tr_batch_idx := 0 |}.

Definition valid_start : ValidVars :=
  {| va_losses := []; va_corrects := 0; va_avg_loss := None;
     va_accuracy := None |}.

(** ** Further notions: the networks *)

(** Size left by a kernel of 3 with padding 1, or of 1 without padding, moved
    by [stride]. *)
Definition strided (n stride : Z) : Z := (n - 1) `div` stride + 1.

(** * Properties *)

(** ** The per-class accumulator *)

Section MapSums.
Context {A : Type} (g : A → Z).

Lemma sum_with_insert_fresh (m : gmap Z A) k x :
  m !! k = None → sum_with g (<[k := x]> m) = g x + sum_with g m.
Proof.
  intros Hk. unfold sum_with.
  rewrite map_fold_insert_L; [done | intros; lia | done].
Qed.

Lemma sum_with_insert (m : gmap Z A) k x :
  sum_with g (<[k := x]> m) = sum_with g m - from_option g 0 (m !! k) + g x.
Proof.
  destruct (m !! k) as [old|] eqn:Hk; simpl.
  - rewrite <- insert_delete_eq.
    rewrite sum_with_insert_fresh by apply lookup_delete_eq.
    unfold sum_with at 2.
    rewrite (map_fold_delete_L _ _ k old m); [| intros; lia | done].
    fold (sum_with g (delete k m)). lia.
  - rewrite sum_with_insert_fresh by done. lia.
Qed.
End MapSums.

Lemma sum_values_incr d k : sum_values (incr d k) = sum_values d + 1.
Proof.
  unfold sum_values, incr.
  pose proof (sum_with_insert (λ v, v) d k (default 0 (d !! k) + 1)) as H.
  unfold sum_with in H. rewrite H. destruct (d !! k); simpl; lia.
Qed.

Lemma sum_lens_append d k v : sum_lens (append_at d k v) = sum_lens d + 1.
Proof.
  unfold sum_lens, append_at.
  pose proof (sum_with_insert (λ l : list Z, Z.of_nat (length l)) d k
                (default [] (d !! k) ++ [v])) as H.
  unfold sum_with in H. rewrite H, length_app.
  destruct (d !! k); simpl; lia.
Qed.

Lemma count_agree_cons p pairs :
  count_agree (p :: pairs) = (if agree p then 1 else 0) + count_agree pairs.
Proof.
  unfold count_agree. rewrite filter_cons.
  destruct (agree p).
  - rewrite decide_True by done. simpl length. lia.
  - rewrite decide_False by done. lia.
Qed.

Lemma update_pair_correct_total stats pair :
  correct_total (update_pair stats pair) = correct_total stats.
Proof. destruct pair as [t p]. unfold update_pair. by case_decide. Qed.

Lemma update_pair_balance stats pair :
  balance (update_pair stats pair)
  = balance stats + (if agree pair then 1 else 0).
Proof.
  destruct pair as [t p]. unfold update_pair, balance, agree; simpl.
  case_decide as Heq.
  - rewrite bool_decide_eq_true_2 by done. simpl. rewrite sum_values_incr. lia.
  - rewrite bool_decide_eq_false_2 by done. simpl.
    rewrite sum_values_incr, sum_lens_append. lia.
Qed.

Lemma foldl_update_pair_correct_total pairs stats :
  correct_total (foldl update_pair stats pairs) = correct_total stats.
Proof.
  revert stats. induction pairs as [|p pairs IH]; intros stats; simpl; [done|].
  by rewrite IH, update_pair_correct_total.
Qed.

Lemma foldl_update_pair_balance pairs stats :
  balance (foldl update_pair stats pairs) = balance stats + count_agree pairs.
Proof.
  revert stats. induction pairs as [|p pairs IH]; intros stats; simpl.
  - unfold count_agree. simpl. lia.
  - rewrite IH, update_pair_balance, count_agree_cons. lia.
Qed.

(** Over equal-length tensors, [eq(...).sum()] counts the agreeing pairs of the
    [zip]. *)
Lemma tensor_sum_zip_eqb y_pred y_true :
  tensor_sum (zip_with Z.eqb y_pred y_true) = count_agree (zip y_true y_pred).
Proof.
  unfold tensor_sum. revert y_true.
  induction y_pred as [|p y_pred IH]; intros [|t y_true]; simpl; try done.
  rewrite count_agree_cons, filter_cons. unfold agree at 1. simpl.
  destruct (Z.eqb_spec p t) as [->|Hne].
  - rewrite bool_decide_eq_true_2 by done. case_decide; [|done].
    simpl length. rewrite Nat2Z.inj_succ, IH. lia.
  - rewrite bool_decide_eq_false_2 by congruence. case_decide; [done|].
    rewrite IH. lia.
Qed.

Lemma tensor_eq_same_length a b :
  length a = length b → tensor_eq a b = Ok (zip_with Z.eqb a b).
Proof. intros H. unfold tensor_eq. by rewrite decide_True. Qed.

Lemma update_equal_length stats y_pred y_true :
  length y_pred = length y_true →
  _update_per_class_dict stats y_pred y_true
  = Ok (foldl update_pair
          (add_correct stats (count_agree (zip y_true y_pred)))
          (zip y_true y_pred)).
Proof.
  intros H. unfold _update_per_class_dict.
  rewrite tensor_eq_same_length by done. simpl.
  by rewrite tensor_sum_zip_eqb.
Qed.

(** C3: in every state reachable from the empty accumulator by updates with
    equal-length label sequences, the ground-truth occurrences summed over the
    classes equal [correct_total] plus the number of recorded
    misclassifications. *)
Theorem accumulator_invariant stats :
  reachable stats →
  sum_values (total_per_class stats)
  = correct_total stats + sum_lens (wrong_predictions stats).
Proof.
  intros Hreach. cut (balance stats = correct_total stats).
  { unfold balance. lia. }
  induction Hreach as [|stats y_pred y_true stats' _ IH Hlen Hupd].
  - unfold balance, sum_values, sum_lens. simpl. by rewrite !map_fold_empty.
  - rewrite update_equal_length in Hupd by done.
    injection Hupd as <-.
    rewrite foldl_update_pair_balance, foldl_update_pair_correct_total.
    unfold balance in *. simpl. lia.
Qed.

Lemma reachable_stats_batch2 : reachable stats_batch2.
Proof.
  apply (reachable_update stats_batch1 [2; 0; 2] [2; 2; 2]).
  - apply (reachable_update _initialize_per_class_dict [0; 1; 1] [0; 0; 1]).
    + apply reachable_init.
    + reflexivity.
    + vm_compute. reflexivity.
  - reflexivity.
  - vm_compute. reflexivity.
Defined.

Lemma accumulator_invariant_witness :
  reachable stats_batch2 ∧
  sum_values (total_per_class stats_batch2)
  = correct_total stats_batch2 + sum_lens (wrong_predictions stats_batch2).
Proof.
  split; [exact reachable_stats_batch2
         | exact (accumulator_invariant stats_batch2 reachable_stats_batch2)].
Defined.

(** *** Sequences of different lengths *)

Lemma tensor_eq_raises_iff a b :
  raises (tensor_eq a b)
  ↔ length a ≠ length b ∧ length a ≠ 1%nat ∧ length b ≠ 1%nat.
Proof.
  unfold tensor_eq. case_decide as Hlen.
  - simpl. split; [done | intros [? _]; done].
  - destruct a as [|x [|x' a]], b as [|y [|y' b]]; simpl in *;
      split; try done; try (intros (? & ? & ?); done); try (intros _; lia).
Qed.

(** When it does not raise, the update consumes as many pairs as the shorter
    sequence has. *)
Lemma update_counts_shorter stats y_pred y_true stats' :
  _update_per_class_dict stats y_pred y_true = Ok stats' →
  sum_values (total_per_class stats')
  = sum_values (total_per_class stats)
    + Z.of_nat (length y_true `min` length y_pred).
Proof.
  unfold _update_per_class_dict.
  destruct (tensor_eq y_pred y_true) as [matches|]; simpl; [|done].
  intros [= <-]. rewrite <- length_zip.
  change (sum_values (total_per_class stats))
    with (sum_values (total_per_class (add_correct stats (tensor_sum matches)))).
  generalize (add_correct stats (tensor_sum matches)) (zip y_true y_pred).
  clear. intros s pairs. revert s.
  induction pairs as [|[t p] pairs IH]; intros s; simpl; [lia|].
  rewrite IH. unfold update_pair. case_decide; simpl; rewrite sum_values_incr; lia.
Qed.

Lemma update_raises_when stats y_pred y_true :
  raises (_update_per_class_dict stats y_pred y_true)
  ↔ length y_pred ≠ length y_true
    ∧ length y_pred ≠ 1%nat ∧ length y_true ≠ 1%nat.
Proof.
  rewrite <- tensor_eq_raises_iff. unfold _update_per_class_dict.
  destruct (tensor_eq y_pred y_true); simpl; done.
Qed.

(** C2, as the code has it: the update signals an error exactly when the two
    label sequences differ in length and neither of them has length one (the
    error comes from the elementwise comparison, the first statement of the
    update); whenever it does not, and so also for a length-one sequence
    against a longer one, it counts as many pairs as the shorter sequence has
    and drops the rest. *)
Theorem update_raises_iff stats y_pred y_true :
  (raises (_update_per_class_dict stats y_pred y_true)
   ↔ length y_pred ≠ length y_true
     ∧ length y_pred ≠ 1%nat ∧ length y_true ≠ 1%nat)
  ∧ ∀ stats',
      _update_per_class_dict stats y_pred y_true = Ok stats' →
      sum_values (total_per_class stats')
      = sum_values (total_per_class stats)
        + Z.of_nat (length y_true `min` length y_pred).
Proof.
  split; [apply update_raises_when | intros stats'; apply update_counts_shorter].
Qed.

(** Two predictions against three labels raise; one prediction against three
    labels is accepted and one label is counted. *)
Lemma update_raises_iff_witness :
  raises (_update_per_class_dict _initialize_per_class_dict [0; 1] [0; 1; 2])
  ∧ ∃ stats',
      _update_per_class_dict _initialize_per_class_dict [0] [0; 1; 2] = Ok stats'
      ∧ sum_values (total_per_class stats')
        = sum_values (total_per_class _initialize_per_class_dict) + 1.
Proof.
  split.
  - apply (proj1 (update_raises_iff _initialize_per_class_dict [0; 1] [0; 1; 2])).
    simpl. lia.
  - eexists. split; [vm_compute; reflexivity|].
    apply (proj2 (update_raises_iff _initialize_per_class_dict [0] [0; 1; 2])).
    vm_compute. reflexivity.
Defined.

(** C2 fails as stated: one prediction against three labels is accepted, and
    only the first label is counted. *)
Lemma update_accepts_length_mismatch :
  length [0] ≠ length [0; 1; 2] ∧
  ¬ raises (_update_per_class_dict _initialize_per_class_dict [0] [0; 1; 2]) ∧
  _update_per_class_dict _initialize_per_class_dict [0] [0; 1; 2]
  = Ok {| correct_total := 1;
          total_per_class := {[0 := 1]};
          correct_per_class := {[0 := 1]};
          wrong_predictions := ∅;
          predicted_as_class := {[0 := 1]} |}.
Proof.
  split; [simpl; lia|]. split; [intros H; exact H|].
  vm_compute. reflexivity.
Qed.

(** ** The metrics engine *)

Local Open Scope Qc_scope.

Lemma Qcdiv_unit_interval (x y : Qc) : 0 ≤ x → x ≤ y → 0 < y → 0 ≤ x / y ≤ 1.
Proof.
  intros Hx Hxy Hy. unfold Qcdiv.
  pose proof (Qcinv_pos y Hy) as Hinv.
  assert (y ≠ 0) as Hne by (intros ->; by apply (Qclt_not_eq 0 0)).
  split.
  - apply Qcmult_nonneg_nonneg; [done | by apply Qclt_le_weak].
  - rewrite <- (Qcmult_inv_r y Hne).
    apply Qcmult_le_mono_nonneg_r; [by apply Qclt_le_weak | done].
Qed.

Lemma Qc_of_Z_nonneg (n : Z) : (0 ≤ n)%Z → 0 ≤ Qc_of_Z n.
Proof. intros H. rewrite <- Z2Qc_inj_0. exact (proj1 (Z2Qc_inj_le 0 n) H). Qed.

Lemma Qc_of_Z_pos (n : Z) : (0 < n)%Z → 0 < Qc_of_Z n.
Proof. intros H. rewrite <- Z2Qc_inj_0. exact (proj1 (Z2Qc_inj_lt 0 n) H). Qed.

Lemma rate_unit_interval (tp other : Z) :
  (0 ≤ tp)%Z → (0 ≤ other)%Z → 0 ≤ rate tp other ≤ 1.
Proof.
  intros Htp Hother. unfold rate. case_decide as Hpos.
  - apply Qcdiv_unit_interval.
    + by apply Qc_of_Z_nonneg.
    + apply (proj1 (Z2Qc_inj_le _ _)). lia.
    + by apply Qc_of_Z_pos.
  - split; [apply Qcle_refl | done].
Qed.

Lemma rate_zero_denominator (tp other : Z) : (tp + other = 0)%Z → rate tp other = 0.
Proof. intros H. unfold rate. rewrite decide_False by lia. done. Qed.

Lemma rate_zero_numerator (other : Z) : rate 0 other = 0.
Proof.
  unfold rate. case_decide; [|done].
  unfold Qcdiv. rewrite Z2Qc_inj_0. apply Qcmult_0_l.
Qed.

Lemma f1_zero_denominator (p r : Qc) : p + r = 0 → f1_of_rates p r = 0.
Proof.
  intros H. unfold f1_of_rates. rewrite H.
  rewrite decide_False; [done|].
  intros Hlt. by apply Qclt_not_eq in Hlt.
Qed.

Lemma f1_unit_interval (p r : Qc) :
  0 ≤ p ≤ 1 → 0 ≤ r ≤ 1 → 0 ≤ f1_of_rates p r ≤ 1.
Proof.
  intros [Hp0 Hp1] [Hr0 Hr1]. unfold f1_of_rates. case_decide as Hpos.
  - apply Qcdiv_unit_interval; [| |done].
    + repeat apply Qcmult_nonneg_nonneg; done.
    + replace (2 * p * r) with (p * r + r * p) by ring.
      apply Qcplus_le_compat.
      * rewrite <- (Qcmult_1_r p) at 2. by apply Qcmult_le_mono_nonneg_l.
      * rewrite <- (Qcmult_1_r r) at 2. by apply Qcmult_le_mono_nonneg_l.
  - split; [apply Qcle_refl | done].
Qed.

Local Close Scope Qc_scope.

(** *** Counts held by a reachable accumulator *)

Lemma get0_incr d k i :
  get0 (incr d k) i = get0 d i + (if decide (k = i) then 1 else 0).
Proof.
  unfold get0, incr. case_decide as Hk.
  - subst. by rewrite lookup_insert_eq.
  - rewrite lookup_insert_ne by done. lia.
Qed.

Lemma update_pair_counts_ok stats pair :
  counts_ok stats → counts_ok (update_pair stats pair).
Proof.
  intros Hok i. destruct (Hok i) as (H0 & Hpred & Htotal).
  destruct pair as [t p]. unfold update_pair.
  case_decide as Heq; simpl; rewrite !get0_incr.
  - subst p. case_decide; lia.
  - repeat case_decide; lia.
Qed.

Lemma foldl_update_pair_counts_ok pairs stats :
  counts_ok stats → counts_ok (foldl update_pair stats pairs).
Proof.
  revert stats. induction pairs as [|p pairs IH]; intros stats Hok; simpl; [done|].
  by apply IH, update_pair_counts_ok.
Qed.

Lemma reachable_counts_ok stats : reachable stats → counts_ok stats.
Proof.
  induction 1 as [|stats y_pred y_true stats' _ IH Hlen Hupd].
  - intros i. unfold get0. simpl. rewrite lookup_empty. simpl. lia.
  - rewrite update_equal_length in Hupd by done. injection Hupd as <-.
    apply foldl_update_pair_counts_ok. exact IH.
Qed.

(** *** The loop over the classes *)

Section ClassLoop.
Variables (cpc tpc : gmap Z Z) (wp : gmap Z (list Z)) (pac : gmap Z Z).

Let step := class_step cpc tpc wp pac.

Lemma foldl_class_step_macro_sum classes vars :
  macro_f1_sum (foldl step vars classes)
  = (macro_f1_sum vars + sum_Qc (map (class_f1 cpc wp pac) classes))%Qc.
Proof.
  revert vars. induction classes as [|i classes IH]; intros vars; simpl.
  - by rewrite Qcplus_0_r.
  - rewrite IH. simpl. unfold class_f1. by rewrite Qcplus_assoc.
Qed.

Ltac class_loop_lookup IH i j classes :=
  simpl; rewrite IH; simpl;
  destruct (decide (i ∈ classes)) as [Hi|Hi];
  [ rewrite decide_True by (apply elem_of_cons; by right); done
  | destruct (decide (i = j)) as [->|Hne];
    [ rewrite lookup_insert_eq, decide_True by (apply elem_of_cons; by left); done
    | rewrite lookup_insert_ne by done;
      rewrite decide_False; [done | intros [?|?]%elem_of_cons; done] ] ].

Lemma foldl_class_step_precision classes vars i :
  precision_dict (foldl step vars classes) !! i
  = if decide (i ∈ classes) then Some (class_precision cpc pac i)
    else precision_dict vars !! i.
Proof.
  revert vars. induction classes as [|j classes IH]; intros vars.
  - case_decide as Hin; [by apply elem_of_nil in Hin | done].
  - class_loop_lookup IH i j classes.
Qed.

Lemma foldl_class_step_recall classes vars i :
  recall_dict (foldl step vars classes) !! i
  = if decide (i ∈ classes) then Some (class_recall cpc wp i)
    else recall_dict vars !! i.
Proof.
  revert vars. induction classes as [|j classes IH]; intros vars.
  - case_decide as Hin; [by apply elem_of_nil in Hin | done].
  - class_loop_lookup IH i j classes.
Qed.

Lemma foldl_class_step_f1 classes vars i :
  f1_dict (foldl step vars classes) !! i
  = if decide (i ∈ classes) then Some (class_f1 cpc wp pac i)
    else f1_dict vars !! i.
Proof.
  revert vars. induction classes as [|j classes IH]; intros vars.
  - case_decide as Hin; [by apply elem_of_nil in Hin | done].
  - class_loop_lookup IH i j classes.
Qed.

End ClassLoop.

(** *** What [compute_classification_metrics] returns *)

Section MetricsResult.
Variables precision_score recall_score : list Z → list Z → result Qc.
Variables (cpc tpc : gmap Z Z) (wp : gmap Z (list Z)) (pac : gmap Z Z).
Variables (y_true y_pred : list Z) (num_classes : Z).

Let vars :=
  foldl (class_step cpc tpc wp pac) loop_init (seqZ 0 num_classes).

Lemma compute_classification_metrics_returns macro_precision macro_recall :
  num_classes ≠ 0 →
  precision_score y_true y_pred = Ok macro_precision →
  recall_score y_true y_pred = Ok macro_recall →
  compute_classification_metrics precision_score recall_score
    cpc tpc wp pac y_true y_pred num_classes
  = Ok (list_to_map
          [("per_class_precision", VDict (precision_dict vars));
           ("per_class_recall", VDict (recall_dict vars));
           ("per_class_f1", VDict (f1_dict vars));
           ("macro_precision", VNum macro_precision);
           ("macro_recall", VNum macro_recall);
           ("macro_f1", VNum (macro_f1_sum vars / Qc_of_Z num_classes)%Qc);
           ("weighted_f1",
            VNum (if decide (0 < sum_values tpc)
                  then (weighted_f1_sum vars / Qc_of_Z (sum_values tpc))%Qc
                  else 0%Qc))]).
Proof.
  intros Hn Hp Hr. unfold compute_classification_metrics, py_div.
  destruct (decide (num_classes = 0)) as [|_]; [done|].
  simpl. rewrite Hp. simpl. rewrite Hr. done.
Qed.

Lemma compute_classification_metrics_zero_classes :
  num_classes = 0 →
  compute_classification_metrics precision_score recall_score
    cpc tpc wp pac y_true y_pred num_classes
  = Raise ZeroDivisionError.
Proof.
  intros ->. unfold compute_classification_metrics, py_div.
  destruct (decide (0 = 0)) as [_|]; done.
Qed.

End MetricsResult.

(** C4: whenever the finalization returns (a nonzero class count, the two
    library averages returned), [macro_f1] is the sum of the per-class F1
    scores over [range(num_classes)] divided by [num_classes], whichever
    classes occur in the counts; and for counts accumulated by the updates, a
    class with zero support has F1 equal to zero. *)
Theorem macro_f1_over_all_classes
    (precision_score recall_score : list Z → list Z → result Qc)
    (stats : Stats) (y_true y_pred : list Z) (num_classes : Z)
    (macro_precision macro_recall : Qc) :
  reachable stats →
  num_classes ≠ 0 →
  precision_score y_true y_pred = Ok macro_precision →
  recall_score y_true y_pred = Ok macro_recall →
  let f1 := class_f1 (correct_per_class stats) (wrong_predictions stats)
                     (predicted_as_class stats) in
  (∃ metrics,
      compute_classification_metrics precision_score recall_score
        (correct_per_class stats) (total_per_class stats)
        (wrong_predictions stats) (predicted_as_class stats)
        y_true y_pred num_classes = Ok metrics
      ∧ metrics !! "macro_f1"
        = Some (VNum (sum_Qc (map f1 (seqZ 0 num_classes))
                      / Qc_of_Z num_classes)%Qc))
  ∧ ∀ i, get0 (total_per_class stats) i = 0 → f1 i = 0%Qc.
Proof.
  intros Hreach Hn Hp Hr f1. split.
  - eexists. split.
    + by apply compute_classification_metrics_returns.
    + rewrite foldl_class_step_macro_sum. simpl macro_f1_sum.
      rewrite Qcplus_0_l. reflexivity.
  - intros i Hsupport.
    destruct (reachable_counts_ok stats Hreach i) as (H0 & _ & Htotal).
    assert (tp_of (correct_per_class stats) i = 0) as Htp
      by (unfold tp_of; lia).
    unfold f1, class_f1, class_precision, class_recall.
    rewrite Htp, !rate_zero_numerator.
    apply f1_zero_denominator. apply Qcplus_0_l.
Qed.

Lemma macro_f1_over_all_classes_witness :
  ∃ macro_precision macro_recall,
    reachable stats_batch2 ∧ 7 ≠ 0
    ∧ macro_precision_score pass_true pass_pred = Ok macro_precision
    ∧ macro_recall_score pass_true pass_pred = Ok macro_recall
    ∧ let f1 := class_f1 (correct_per_class stats_batch2)
                         (wrong_predictions stats_batch2)
                         (predicted_as_class stats_batch2) in
      (∃ metrics,
          compute_classification_metrics macro_precision_score macro_recall_score
            (correct_per_class stats_batch2) (total_per_class stats_batch2)
            (wrong_predictions stats_batch2) (predicted_as_class stats_batch2)
            pass_true pass_pred 7 = Ok metrics
          ∧ metrics !! "macro_f1"
            = Some (VNum (sum_Qc (map f1 (seqZ 0 7)) / Qc_of_Z 7)%Qc))
      ∧ ∀ i, get0 (total_per_class stats_batch2) i = 0 → f1 i = 0%Qc.
Proof.
  eexists _, _.
  split; [exact reachable_stats_batch2|].
  split; [lia|].
  split; [vm_compute; reflexivity|].
  split; [vm_compute; reflexivity|].
  eapply (macro_f1_over_all_classes macro_precision_score macro_recall_score
            stats_batch2 pass_true pass_pred 7);
    [exact reachable_stats_batch2 | lia
    | vm_compute; reflexivity | vm_compute; reflexivity].
Defined.

(** The worked pass in figures: four correct predictions; precision, recall
    and F1 of the three classes; and their macro F1 over three classes. *)
Lemma worked_pass_metrics :
  let precision := class_precision (correct_per_class stats_batch2)
                                   (predicted_as_class stats_batch2) in
  let recall := class_recall (correct_per_class stats_batch2)
                             (wrong_predictions stats_batch2) in
  let f1 := class_f1 (correct_per_class stats_batch2)
                     (wrong_predictions stats_batch2)
                     (predicted_as_class stats_batch2) in
  correct_total stats_batch2 = 4
  ∧ (precision 0 = Q2Qc (1 # 2) ∧ recall 0 = Q2Qc (1 # 2) ∧ f1 0 = Q2Qc (1 # 2))
  ∧ (precision 1 = Q2Qc (1 # 2) ∧ recall 1 = 1%Qc ∧ f1 1 = Q2Qc (2 # 3))
  ∧ (precision 2 = 1%Qc ∧ recall 2 = Q2Qc (2 # 3) ∧ f1 2 = Q2Qc (4 # 5))
  ∧ (sum_Qc (map f1 (seqZ 0 3)) / Qc_of_Z 3)%Qc = Q2Qc (59 # 90).
Proof.
  repeat split; try reflexivity; apply Qc_is_canon; vm_compute; reflexivity.
Qed.

(** C5: for counts accumulated by equal-length updates and every class [i] of
    [range(num_classes)], the finalization returns and stores for [i] a
    precision, a recall and an F1 that lie between 0 and 1; the false-positive
    count [predicted_as_class[i] - tp] is not negative, and each rate is
    exactly 0 when its denominator is 0. *)
Theorem per_class_metrics_in_unit_interval
    (precision_score recall_score : list Z → list Z → result Qc)
    (stats : Stats) (y_true y_pred : list Z) (num_classes : Z)
    (macro_precision macro_recall : Qc) (i : Z) :
  reachable stats →
  precision_score y_true y_pred = Ok macro_precision →
  recall_score y_true y_pred = Ok macro_recall →
  0 ≤ i < num_classes →
  let tp := tp_of (correct_per_class stats) i in
  let fp := fp_of (correct_per_class stats) (predicted_as_class stats) i in
  let fn := fn_of (wrong_predictions stats) i in
  ∃ metrics pd rd fd p r f,
    compute_classification_metrics precision_score recall_score
      (correct_per_class stats) (total_per_class stats)
      (wrong_predictions stats) (predicted_as_class stats)
      y_true y_pred num_classes = Ok metrics
    ∧ metrics !! "per_class_precision" = Some (VDict pd) ∧ pd !! i = Some p
    ∧ metrics !! "per_class_recall" = Some (VDict rd) ∧ rd !! i = Some r
    ∧ metrics !! "per_class_f1" = Some (VDict fd) ∧ fd !! i = Some f
    ∧ 0 ≤ fp
    ∧ (0 ≤ p ≤ 1)%Qc ∧ (0 ≤ r ≤ 1)%Qc ∧ (0 ≤ f ≤ 1)%Qc
    ∧ (tp + fp = 0 → p = 0%Qc)
    ∧ (tp + fn = 0 → r = 0%Qc)
    ∧ ((p + r)%Qc = 0%Qc → f = 0%Qc).
Proof.
  intros Hreach Hp Hr Hi tp fp fn.
  destruct (reachable_counts_ok stats Hreach i) as (Htp & Hpred & _).
  assert (i ∈ seqZ 0 num_classes) as Hin by (apply elem_of_seqZ; lia).
  assert (0 ≤ fp) as Hfp by (unfold fp, fp_of, tp_of; lia).
  assert (0 ≤ fn) as Hfn by (unfold fn, fn_of, get_len; lia).
  pose proof (rate_unit_interval tp fp Htp Hfp) as Hpb.
  pose proof (rate_unit_interval tp fn Htp Hfn) as Hrb.
  eexists _, _, _, _, (rate tp fp), (rate tp fn),
    (f1_of_rates (rate tp fp) (rate tp fn)).
  split.
  { apply compute_classification_metrics_returns; [lia | exact Hp | exact Hr]. }
  split; [reflexivity|]. split.
  { rewrite foldl_class_step_precision. by rewrite decide_True. }
  split; [reflexivity|]. split.
  { rewrite foldl_class_step_recall. by rewrite decide_True. }
  split; [reflexivity|]. split.
  { rewrite foldl_class_step_f1. by rewrite decide_True. }
  split; [exact Hfp|]. split; [exact Hpb|]. split; [exact Hrb|].
  split; [by apply f1_unit_interval|].
  split; [apply rate_zero_denominator|].
  split; [apply rate_zero_denominator | apply f1_zero_denominator].
Qed.

Lemma per_class_metrics_in_unit_interval_witness :
  ∃ macro_precision macro_recall,
    reachable stats_batch2
    ∧ macro_precision_score pass_true pass_pred = Ok macro_precision
    ∧ macro_recall_score pass_true pass_pred = Ok macro_recall
    ∧ 0 ≤ 1 < 7
    ∧ ∃ metrics pd rd fd p r f,
        compute_classification_metrics macro_precision_score macro_recall_score
          (correct_per_class stats_batch2) (total_per_class stats_batch2)
          (wrong_predictions stats_batch2) (predicted_as_class stats_batch2)
          pass_true pass_pred 7 = Ok metrics
        ∧ metrics !! "per_class_precision" = Some (VDict pd) ∧ pd !! 1 = Some p
        ∧ metrics !! "per_class_recall" = Some (VDict rd) ∧ rd !! 1 = Some r
        ∧ metrics !! "per_class_f1" = Some (VDict fd) ∧ fd !! 1 = Some f
        ∧ 0 ≤ fp_of (correct_per_class stats_batch2)
                    (predicted_as_class stats_batch2) 1
        ∧ (0 ≤ p ≤ 1)%Qc ∧ (0 ≤ r ≤ 1)%Qc ∧ (0 ≤ f ≤ 1)%Qc
        ∧ (tp_of (correct_per_class stats_batch2) 1
           + fp_of (correct_per_class stats_batch2)
                   (predicted_as_class stats_batch2) 1 = 0 → p = 0%Qc)
        ∧ (tp_of (correct_per_class stats_batch2) 1
           + fn_of (wrong_predictions stats_batch2) 1 = 0 → r = 0%Qc)
        ∧ ((p + r)%Qc = 0%Qc → f = 0%Qc).
Proof.
  eexists _, _.
  split; [exact reachable_stats_batch2|].
  split; [vm_compute; reflexivity|].
  split; [vm_compute; reflexivity|].
  split; [lia|].
  eapply (per_class_metrics_in_unit_interval
            macro_precision_score macro_recall_score
            stats_batch2 pass_true pass_pred 7 _ _ 1);
    [exact reachable_stats_batch2
    | vm_compute; reflexivity | vm_compute; reflexivity | lia].
Defined.

(** ** The ensemble *)








(** ** The evaluation entry point *)

Lemma bind_Ok {A B} (m : result A) (f : A → result B) (b : B) :
  m ≫= f = Ok b → ∃ a, m = Ok a ∧ f a = Ok b.
Proof. destruct m as [a|e]; simpl; [eauto | done]. Qed.

Section TestModel.
Variables precision_score recall_score : list Z → list Z → result Qc.
Context {Data : Type}.

Lemma compute_classification_metrics_Ok cpc tpc wp pac y_true y_pred n metrics :
  compute_classification_metrics precision_score recall_score
    cpc tpc wp pac y_true y_pred n = Ok metrics →
  ∃ pd rd fd mp mr mf wf,
    metrics = list_to_map
                [("per_class_precision", VDict pd);
                 ("per_class_recall", VDict rd);
                 ("per_class_f1", VDict fd);
                 ("macro_precision", VNum mp);
                 ("macro_recall", VNum mr);
                 ("macro_f1", VNum mf);
                 ("weighted_f1", VNum wf)].
Proof.
  unfold compute_classification_metrics. intros H.
  apply bind_Ok in H as (mf & _ & H).
  apply bind_Ok in H as (mp & _ & H).
  apply bind_Ok in H as (mr & _ & H).
  injection H as <-. by eexists _, _, _, _, _, _, _.
Qed.

Lemma _finalize_metrics_contract stats y_true_all y_pred_all
    (test_loader : DataLoader Data) n metrics :
  _finalize_metrics stats y_true_all y_pred_all test_loader
    (compute_classification_metrics precision_score recall_score) n = Ok metrics →
  return_contract metrics y_true_all y_pred_all.
Proof.
  unfold _finalize_metrics. intros H.
  apply bind_Ok in H as (ratio & _ & H).
  apply bind_Ok in H as (m0 & Hm0 & H).
  apply compute_classification_metrics_Ok in Hm0
    as (pd & rd & fd & mp & mr & mf & wf & ->).
  injection H as <-.
  unfold return_contract, is_dict, is_number.
  repeat split; try (eexists; reflexivity); try reflexivity.
Qed.

Lemma test_batch_Ok (models : list (Model Data)) test_loader n vars sample vars' :
  test_batch precision_score recall_score models test_loader n vars sample
  = Ok vars' →
  ∃ preds metrics,
    predict models (image sample) = Ok preds
    ∧ tv_y_true_all vars' = tv_y_true_all vars ++ label sample
    ∧ tv_y_pred_all vars' = tv_y_pred_all vars ++ preds
    ∧ tv_metrics vars' = Some metrics
    ∧ return_contract metrics (tv_y_true_all vars') (tv_y_pred_all vars').
Proof.
  unfold test_batch, predict. intros H.
  apply bind_Ok in H as (logits & Hlogits & H).
  apply bind_Ok in H as (preds & Hpreds & H).
  apply bind_Ok in H as (stats & _ & H).
  apply bind_Ok in H as (metrics & Hmetrics & H).
  injection H as <-. simpl.
  exists preds, metrics. rewrite Hlogits. simpl.
  repeat split; try done.
  all: by apply _finalize_metrics_contract in Hmetrics as (? & ? & ? & ? & ? & ? & ? & ? & ? & ? & ?).
Qed.

End TestModel.

Section TestModelPass.
Variables precision_score recall_score : list Z → list Z → result Qc.
Context {Data : Type}.
Variables (models : list (Model Data)) (test_loader : DataLoader Data).
Variable num_classes : Z.

Let body := test_batch precision_score recall_score models test_loader num_classes.

(** What the loop over the batches has done when it ends without raising. *)
Lemma for_each_test_batch samples vars vars' :
  for_each body vars samples = Ok vars' →
  (∃ preds,
      Forall2 (λ s p, predict models (image s) = Ok p) samples preds
      ∧ tv_y_true_all vars' = tv_y_true_all vars ++ concat (label <$> samples)
      ∧ tv_y_pred_all vars' = tv_y_pred_all vars ++ concat preds)
  ∧ (samples = [] ∧ vars' = vars
     ∨ ∃ metrics, tv_metrics vars' = Some metrics
                  ∧ return_contract metrics (tv_y_true_all vars')
                                    (tv_y_pred_all vars')).
Proof.
  revert vars. induction samples as [|s samples IH]; intros vars H; simpl in H.
  - injection H as <-. split; [|by left].
    exists []. simpl. rewrite !app_nil_r. by repeat split.
  - apply bind_Ok in H as (vars1 & Hstep & H).
    apply test_batch_Ok in Hstep as (p & m & Hp & Htrue & Hpred & Hm & Hc).
    destruct (IH _ H) as [(preds & Hall & Htrue' & Hpred') Hlast].
    split.
    + exists (p :: preds). split; [by constructor|]. simpl.
      rewrite Htrue', Hpred', Htrue, Hpred, <- !app_assoc. done.
    + right. destruct Hlast as [[-> ->]|?]; [by exists m | done].
Qed.

End TestModelPass.

Section TestModelContract.
Variables precision_score recall_score : list Z → list Z → result Qc.
Context {Data : Type}.

Lemma test_model_Ok (models : Model Data + list (Model Data))
    (test_loader : DataLoader Data) (verbose : bool) (metrics : Metrics) :
  test_model precision_score recall_score models test_loader verbose = Ok metrics →
  ∃ num_classes vars,
    for_each (test_batch precision_score recall_score
                (_ensure_model_list models) test_loader num_classes)
      {| tv_stats := _initialize_per_class_dict; tv_y_true_all := [];
         tv_y_pred_all := []; tv_metrics := None |}
      (batches test_loader) = Ok vars
    ∧ tv_metrics vars = Some metrics.
Proof.
  unfold test_model. intros H.
  apply bind_Ok in H as (model0 & _ & H).
  apply bind_Ok in H as (n & _ & H).
  apply bind_Ok in H as (vars & Hloop & H).
  apply bind_Ok in H as (_ & _ & H).
  exists n, vars. split; [exact Hloop|].
  destruct (tv_metrics vars); [by injection H as -> | done].
Qed.

(** C8: the dictionary returned by a completed evaluation pass has exactly the
    ten contract keys, the three [per_class_*] entries being dictionaries over
    class labels and the five aggregate entries numbers; [correct_labels] is
    the concatenation of the batches' labels and [predicted_labels] the
    concatenation of the labels predicted for the batches, in order. *)
Theorem test_model_return_contract (models : Model Data + list (Model Data))
    (test_loader : DataLoader Data) (verbose : bool) (metrics : Metrics) :
  test_model precision_score recall_score models test_loader verbose = Ok metrics →
  ∃ preds,
    Forall2 (λ s p, predict (_ensure_model_list models) (image s) = Ok p)
            (batches test_loader) preds
    ∧ return_contract metrics (concat (label <$> batches test_loader))
                      (concat preds).
Proof.
  intros H. apply test_model_Ok in H as (n & vars & Hloop & Hmetrics).
  apply for_each_test_batch in Hloop as [(preds & Hall & Htrue & Hpred) Hlast].
  simpl in Htrue, Hpred. exists preds. split; [exact Hall|].
  destruct Hlast as [[_ ->]|(m & Hm & Hc)]; [done|].
  rewrite Htrue, Hpred in Hc. congruence.
Qed.

(** C10: over a loader that yields no batch, [test_model] raises instead of
    returning; hence a returned dictionary always comes from a pass over at
    least one batch. *)
Theorem test_model_requires_a_batch (models : Model Data + list (Model Data))
    (test_loader : DataLoader Data) (verbose : bool) :
  (batches test_loader = [] →
   raises (test_model precision_score recall_score models test_loader verbose))
  ∧ ∀ metrics,
      test_model precision_score recall_score models test_loader verbose
      = Ok metrics →
      batches test_loader ≠ [].
Proof.
  assert (∀ metrics,
            test_model precision_score recall_score models test_loader verbose
            = Ok metrics → batches test_loader ≠ []) as Hret.
  { intros metrics H Hempty.
    apply test_model_Ok in H as (n & vars & Hloop & Hmetrics).
    rewrite Hempty in Hloop. simpl in Hloop. injection Hloop as <-. done. }
  split; [|exact Hret].
  intros Hempty.
  destruct (test_model precision_score recall_score models test_loader verbose)
    as [metrics|e] eqn:H; simpl; [|done].
  by apply (Hret metrics).
Qed.

(** With a usable first model, the error over an empty loader is the unbound
    local [metrics]. *)
Lemma test_model_empty_loader (m : Model Data) (rest : list (Model Data))
    (n size : Z) (verbose : bool) :
  num_classes_attr m = Some n →
  test_model precision_score recall_score (inr (m :: rest))
    (mkLoader [] size) verbose
  = Raise UnboundLocalError.
Proof. intros Hn. unfold test_model. simpl. rewrite Hn. by destruct verbose. Qed.

End TestModelContract.

Lemma is_Ok_unwrap {A} (d : A) (r : result A) :
  is_Ok r = true → r = Ok (unwrap d r).
Proof. by destruct r. Qed.

Lemma test_model_return_contract_witness :
  test_model macro_precision_score macro_recall_score
    (inl example_model) example_loader false = Ok example_metrics
  ∧ ∃ preds,
      Forall2 (λ s p, predict [example_model] (image s) = Ok p)
              (batches example_loader) preds
      ∧ return_contract example_metrics
          (concat (label <$> batches example_loader)) (concat preds).
Proof.
  assert (test_model macro_precision_score macro_recall_score
            (inl example_model) example_loader false = Ok example_metrics)
    as Hrun by (apply is_Ok_unwrap; vm_compute; reflexivity).
  split; [exact Hrun|].
  exact (test_model_return_contract macro_precision_score macro_recall_score
           (inl example_model) example_loader false example_metrics Hrun).
Defined.

Lemma test_model_requires_a_batch_witness :
  raises (test_model macro_precision_score macro_recall_score
            (inl example_model) empty_loader false)
  ∧ test_model macro_precision_score macro_recall_score
      (inl example_model) example_loader false = Ok example_metrics
  ∧ batches example_loader ≠ [].
Proof.
  assert (test_model macro_precision_score macro_recall_score
            (inl example_model) example_loader false = Ok example_metrics)
    as Hrun by (apply is_Ok_unwrap; vm_compute; reflexivity).
  split; [|split; [exact Hrun|]].
  - apply (test_model_requires_a_batch macro_precision_score macro_recall_score
             (inl example_model) empty_loader false).
    reflexivity.
  - exact (proj2 (test_model_requires_a_batch
                    macro_precision_score macro_recall_score
                    (inl example_model) example_loader false)
                 example_metrics Hrun).
Defined.

(** ** Early stopping *)

Module EarlyStoppingFacts.
Import EarlyStopping.

Section Stopper.
Variables Model StateDict : Type.
Variable state_dict : Model → StateDict.
Variable import_state : Model → StateDict → result Model.

(** The library's side of [load_state_dict]: a state dictionary that fits the
    network is loaded, and the network then hands out that state. *)
Variable fits : Model → StateDict → Prop.
Hypothesis import_state_fits :
  ∀ model sd, fits model sd →
    ∃ model', import_state model sd = Ok model' ∧ state_dict model' = sd.

Lemma call_recorded self val_loss model epoch :
  fresh self ∨ recorded self →
  recorded (__call__ state_dict self val_loss model epoch).
Proof.
  unfold recorded, fresh, __call__. intros Hself.
  destruct (best_score self) as [best|] eqn:Hbest; simpl; [|eauto].
  destruct Hself as [[? _]|[_ Hsnap]]; [done|].
  repeat case_decide; simpl; rewrite ?Hbest; eauto.
Qed.

Lemma observe_all_recorded obs self :
  recorded self → recorded (observe_all state_dict self obs).
Proof.
  revert self. induction obs as [|[[val_loss model] epoch] obs IH];
    intros self Hself; simpl; [done|].
  apply IH, call_recorded. by right.
Qed.

Lemma observe_all_nonempty_recorded obs patience delta :
  obs ≠ [] →
  recorded (observe_all state_dict (__init__ patience delta) obs).
Proof.
  destruct obs as [|[[val_loss model] epoch] obs]; [done|]. intros _. simpl.
  apply observe_all_recorded, call_recorded. by left.
Qed.

(** C9: before any observation [load_best_model] raises (the [TypeError] of
    [load_state_dict(None)]) and loads nothing; after at least one observation
    a snapshot is retained, and loading it into a network it fits succeeds and
    leaves the network with exactly that state. *)
Theorem load_best_model_needs_observation :
  (∀ patience delta model,
      load_best_model import_state (__init__ patience delta) model
      = Raise TypeError)
  ∧ ∀ patience delta obs model,
      obs ≠ [] →
      let self := observe_all state_dict (__init__ patience delta) obs in
      ∃ sd, best_model_state self = Some sd
            ∧ (fits model sd →
               ∃ model', load_best_model import_state self model = Ok model'
                         ∧ state_dict model' = sd).
Proof.
  split; [done|].
  intros patience delta obs model Hobs self. subst self.
  destruct (observe_all_nonempty_recorded obs patience delta Hobs)
    as [_ [sd Hsd]].
  exists sd. split; [exact Hsd|].
  intros Hfits. unfold load_best_model, load_state_dict.
  rewrite Hsd. by apply import_state_fits.
Qed.


End Stopper.
End EarlyStoppingFacts.

Lemma vector_import_fits (m sd : list Z) :
  vector_fits m sd →
  ∃ m', vector_import m sd = Ok m' ∧ vector_state_dict m' = sd.
Proof.
  unfold vector_fits, vector_import. intros H. exists sd.
  by rewrite decide_True.
Qed.


Lemma load_best_model_needs_observation_witness :
  let self :=
    EarlyStopping.observe_all vector_state_dict
      (EarlyStopping.__init__ 5 0%Qc) [(1%Qc, [10; 20], 0)] in
  EarlyStopping.load_best_model vector_import
    (EarlyStopping.__init__ 5 0%Qc) [0; 0] = Raise TypeError
  ∧ ∃ sd model',
      EarlyStopping.best_model_state self = Some sd
      ∧ vector_fits [0; 0] sd
      ∧ EarlyStopping.load_best_model vector_import self [0; 0] = Ok model'
      ∧ vector_state_dict model' = sd.
Proof.
  intros self.
  destruct (EarlyStoppingFacts.load_best_model_needs_observation
              (list Z) (list Z) vector_state_dict vector_import vector_fits
              vector_import_fits) as [Hnone Hsome].
  split; [apply Hnone|].
  destruct (Hsome 5 0%Qc [(1%Qc, [10; 20], 0)] [0; 0]) as (sd & Hsd & Hload);
    [done|].
  assert (vector_fits [0; 0] sd) as Hfits.
  { vm_compute in Hsd. injection Hsd as <-. reflexivity. }
  destruct (Hload Hfits) as (model' & Hmodel & Hstate).
  exists sd, model'. done.
Defined.

(** ** Training and validation passes *)

Section LoopFacts.
Context {Data Net : Type}.
Variable forward : Net → Data → Tensor.
Variable loss_function : Tensor → list Z → Qc.
Variable optimizer_step : Net → Data → list Z → Net.
Variable data_len : Data → Z.

Lemma average_nil : average [] = Raise ZeroDivisionError.
Proof. reflexivity. Qed.

(** Without [save] no loss is ever appended. *)
Lemma for_each_train_batch_no_save train_loader verbose samples vars vars' :
  for_each (train_batch forward loss_function optimizer_step data_len
              train_loader false verbose) vars samples = Ok vars' →
  tr_losses vars' = tr_losses vars.
Proof.
  revert vars. induction samples as [|s samples IH]; intros vars H; simpl in H.
  - by injection H as <-.
  - apply bind_Ok in H as (vars1 & Hstep & H).
    rewrite (IH _ H). unfold train_batch in Hstep.
    apply bind_Ok in Hstep as (c & _ & Hstep).
    apply bind_Ok in Hstep as (_ & _ & Hstep).
    by injection Hstep as <-.
Qed.

(** [train_model] called with [save=False] never returns: when the loop
    completes, the average of the empty loss list divides by zero. *)
Lemma train_model_no_save_raises model train_loader epoch verbose :
  raises (train_model forward loss_function optimizer_step data_len
            model train_loader epoch false verbose).
Proof.
  unfold train_model.
  destruct (for_each _ _ (l_batches train_loader)) as [vars|e] eqn:Hloop;
    simpl; [|done].
  apply for_each_train_batch_no_save in Hloop. simpl in Hloop.
  by rewrite Hloop.
Qed.

Lemma validate_batch_no_save_raises model valid_loader vars sample :
  va_losses vars = [] →
  raises (validate_batch forward loss_function model valid_loader false
            vars sample).
Proof.
  intros Hnil. unfold validate_batch. rewrite Hnil.
  destruct (count_corrects _ _); simpl; done.
Qed.

(** [validate_model] called with [save=False] raises on the first batch, for
    the same reason. *)
Lemma validate_model_no_save_raises model valid_loader verbose :
  l_batches valid_loader ≠ [] →
  raises (validate_model forward loss_function model valid_loader false verbose).
Proof.
  unfold validate_model.
  destruct (l_batches valid_loader) as [|s samples]; [done|]. intros _.
  simpl.
  pose proof (validate_batch_no_save_raises model valid_loader
                {| va_losses := []; va_corrects := 0;
                   va_avg_loss := None; va_accuracy := None |} s eq_refl) as H.
  destruct (validate_batch _ _ _ _ _ _ _); simpl; done.
Qed.

(** Only over a loader without batches, and without [verbose], does
    [validate_model] return the documented pair of zeros. *)
Lemma validate_model_no_save_empty model size :
  validate_model forward loss_function model (mkTrainLoader [] size) false false
  = Ok (0%Qc, 0%Qc).
Proof. reflexivity. Qed.

Lemma for_each_train_batch_save train_loader verbose samples vars vars' :
  for_each (train_batch forward loss_function optimizer_step data_len
              train_loader true verbose) vars samples = Ok vars' →
  tr_losses vars' = tr_losses vars
                    ++ batch_losses forward loss_function optimizer_step
                         (tr_model vars) samples.
Proof.
  revert vars. induction samples as [|s samples IH]; intros vars H; simpl in H.
  - injection H as <-. simpl. by rewrite app_nil_r.
  - apply bind_Ok in H as (vars1 & Hstep & H).
    rewrite (IH _ H). unfold train_batch in Hstep.
    apply bind_Ok in Hstep as (c & _ & Hstep).
    apply bind_Ok in Hstep as (_ & _ & Hstep).
    injection Hstep as <-. simpl. by rewrite <- app_assoc.
Qed.

(** With [save=True], what [train_model] returns is the mean of the recorded
    batch losses and the percentage of correct predictions. *)
Lemma train_model_save_returns model train_loader epoch verbose avg_loss accuracy :
  train_model forward loss_function optimizer_step data_len
    model train_loader epoch true verbose = Ok (avg_loss, accuracy) →
  let losses := batch_losses forward loss_function optimizer_step
                  model (l_batches train_loader) in
  ∃ vars,
    for_each (train_batch forward loss_function optimizer_step data_len
                train_loader true verbose)
      {| tr_model := model; tr_losses := []; tr_corrects := 0;
         tr_batch_idx := 0 |} (l_batches train_loader) = Ok vars
    ∧ avg_loss = (sum_Qc losses / Qc_of_Z (Z.of_nat (length losses)))%Qc
    ∧ accuracy = (Qc_of_Z (100 * tr_corrects vars)
                  / Qc_of_Z (l_dataset_len train_loader))%Qc.
Proof.
  intros H losses. unfold train_model in H.
  apply bind_Ok in H as (vars & Hloop & H). exists vars. split; [exact Hloop|].
  apply for_each_train_batch_save in Hloop. simpl in Hloop.
  apply bind_Ok in H as (a & Ha & H).
  apply bind_Ok in H as (acc & Hacc & H).
  injection H as <- <-.
  unfold average, py_div in Ha, Hacc. rewrite Hloop in Ha. fold losses in Ha.
  repeat case_decide; try done.
  injection Ha as <-. injection Hacc as <-. done.
Qed.

End LoopFacts.

(** C1 at a one-batch pass with [save=False]: both loops raise
    [ZeroDivisionError] where the documentation promises the pair of zeros;
    the same pass with [save=True] returns. *)
Theorem passes_without_save_raise :
  train_model example_forward example_loss example_step example_len
    tt example_train_loader 0 false 0 = Raise ZeroDivisionError
  ∧ validate_model example_forward example_loss
      tt example_train_loader false false = Raise ZeroDivisionError
  ∧ is_Ok (train_model example_forward example_loss example_step example_len
             tt example_train_loader 0 true 0) = true
  ∧ is_Ok (validate_model example_forward example_loss
             tt example_train_loader true false) = true.
Proof. repeat split; vm_compute; reflexivity. Qed.

(** * Further properties *)

(** ** The accumulator, class by class *)

Lemma reachable_accumulated stats : reachable stats → accumulated stats.
Proof.
  induction 1 as [|stats y_pred y_true stats' _ IH _ Hupd];
    [apply accumulated_init | by eapply accumulated_update].
Qed.

Lemma update_Ok_foldl stats y_pred y_true stats' :
  _update_per_class_dict stats y_pred y_true = Ok stats' →
  ∃ n, stats' = foldl update_pair (add_correct stats n) (zip y_true y_pred).
Proof.
  unfold _update_per_class_dict. intros H.
  apply bind_Ok in H as (matches & _ & H). injection H as <-. eauto.
Qed.

Lemma get_list_append d k v i :
  get_list (append_at d k v) i
  = get_list d i ++ (if decide (k = i) then [v] else []).
Proof.
  unfold get_list, append_at. case_decide as Hk.
  - subst. by rewrite lookup_insert_eq.
  - rewrite lookup_insert_ne by done. by rewrite app_nil_r.
Qed.

Lemma count_where_cons (P : Z * Z → Prop) `{∀ p, Decision (P p)} p pairs :
  count_where P (p :: pairs)
  = (if decide (P p) then 1 else 0) + count_where P pairs.
Proof.
  unfold count_where. rewrite filter_cons.
  destruct (decide (P p)); simpl length; lia.
Qed.

Lemma update_pair_per_class stats t p i :
  get0 (total_per_class (update_pair stats (t, p))) i
  = get0 (total_per_class stats) i + (if decide (t = i) then 1 else 0)
  ∧ get0 (predicted_as_class (update_pair stats (t, p))) i
    = get0 (predicted_as_class stats) i + (if decide (p = i) then 1 else 0)
  ∧ get0 (correct_per_class (update_pair stats (t, p))) i
    = get0 (correct_per_class stats) i
      + (if decide (t = i ∧ p = i) then 1 else 0)
  ∧ get_list (wrong_predictions (update_pair stats (t, p))) i
    = get_list (wrong_predictions stats) i
      ++ (if decide (t = i ∧ p ≠ i) then [p] else []).
Proof.
  unfold update_pair.
  destruct (decide (t = p)) as [->|Hne]; simpl;
    rewrite ?get0_incr, ?get_list_append;
    repeat case_decide; destruct_and?; subst;
    try congruence; try (exfalso; tauto);
    rewrite ?app_nil_r, ?Z.add_0_r; done.
Qed.

(** X1: what one update does to each class.  For the pairs [(true, predicted)]
    that [zip] forms, the update adds to a class its ground-truth occurrences,
    the times it was predicted and its true positives, and appends to its list
    of wrong predictions, in batch order, the predictions made for its
    misclassified samples; classes that do not occur are left as they were. *)
Theorem update_class_by_class stats y_pred y_true stats' i :
  _update_per_class_dict stats y_pred y_true = Ok stats' →
  let pairs := zip y_true y_pred in
  get0 (total_per_class stats') i
  = get0 (total_per_class stats) i + count_where (λ p, p.1 = i) pairs
  ∧ get0 (predicted_as_class stats') i
    = get0 (predicted_as_class stats) i + count_where (λ p, p.2 = i) pairs
  ∧ get0 (correct_per_class stats') i
    = get0 (correct_per_class stats) i
      + count_where (λ p, p.1 = i ∧ p.2 = i) pairs
  ∧ get_list (wrong_predictions stats') i
    = get_list (wrong_predictions stats) i ++ mispredictions_of i pairs.
Proof.
  intros H pairs. apply update_Ok_foldl in H as (n & ->). fold pairs.
  change (get0 (total_per_class stats) i)
    with (get0 (total_per_class (add_correct stats n)) i).
  change (get0 (predicted_as_class stats) i)
    with (get0 (predicted_as_class (add_correct stats n)) i).
  change (get0 (correct_per_class stats) i)
    with (get0 (correct_per_class (add_correct stats n)) i).
  change (get_list (wrong_predictions stats) i)
    with (get_list (wrong_predictions (add_correct stats n)) i).
  generalize (add_correct stats n). clear. intros s.
  revert s. induction pairs as [|[t p] pairs IH]; intros s.
  - unfold count_where, mispredictions_of. simpl.
    rewrite app_nil_r. repeat split; lia.
  - change (foldl update_pair s ((t, p) :: pairs))
      with (foldl update_pair (update_pair s (t, p)) pairs).
    destruct (update_pair_per_class s t p i) as (Ht1 & Hp1 & Hc1 & Hw1).
    destruct (IH (update_pair s (t, p))) as (Ht & Hp & Hc & Hw).
    rewrite Ht, Hp, Hc, Hw, Ht1, Hp1, Hc1, Hw1, !count_where_cons.
    unfold mispredictions_of. rewrite filter_cons. simpl.
    repeat split; try lia.
    rewrite <- app_assoc. f_equal.
    destruct (decide (t = i ∧ p ≠ i)); reflexivity.
Qed.

Lemma update_class_by_class_witness :
  ∃ stats',
    _update_per_class_dict _initialize_per_class_dict [0; 1; 1] [0; 0; 1]
    = Ok stats'
    ∧ get0 (total_per_class stats') 0 = 0 + 2
    ∧ get0 (predicted_as_class stats') 0 = 0 + 1
    ∧ get0 (correct_per_class stats') 0 = 0 + 1
    ∧ get_list (wrong_predictions stats') 0 = [] ++ [1].
Proof.
  eexists. split; [vm_compute; reflexivity|].
  apply (update_class_by_class _initialize_per_class_dict [0; 1; 1] [0; 0; 1]
           _ 0).
  vm_compute. reflexivity.
Defined.

(** ** Invariants of the accumulated counts *)

Lemma accumulated_invariant (P : Stats → Prop) :
  P _initialize_per_class_dict →
  (∀ s n, P s → P (add_correct s n)) →
  (∀ s pair, P s → P (update_pair s pair)) →
  ∀ stats, accumulated stats → P stats.
Proof.
  intros Hinit Hadd Hpair stats Hacc.
  induction Hacc as [|stats y_pred y_true stats' _ IH Hupd]; [done|].
  apply update_Ok_foldl in Hupd as (n & ->).
  generalize (Hadd _ n IH). generalize (add_correct stats n).
  generalize (zip y_true y_pred). clear -Hpair.
  intros pairs. induction pairs as [|p pairs IH]; intros s Hs; simpl; [done|].
  by apply IH, Hpair.
Qed.

Lemma accumulated_support_splits stats i :
  accumulated stats →
  get0 (total_per_class stats) i
  = get0 (correct_per_class stats) i + get_len (wrong_predictions stats) i.
Proof.
  intros Hacc. revert i.
  apply (accumulated_invariant
           (λ s, ∀ i, get0 (total_per_class s) i
                      = get0 (correct_per_class s) i
                        + get_len (wrong_predictions s) i)); [| |  |exact Hacc].
  - intros i. unfold get0, get_len. simpl. by rewrite !lookup_empty.
  - intros s n Hs i. exact (Hs i).
  - intros s [t p] Hs i.
    destruct (update_pair_per_class s t p i) as (Ht & _ & Hc & Hw).
    change (get_len (wrong_predictions (update_pair s (t, p))) i)
      with (Z.of_nat (length (get_list
              (wrong_predictions (update_pair s (t, p))) i))).
    rewrite Ht, Hc, Hw, length_app, (Hs i). unfold get_len, get_list.
    repeat case_decide; destruct_and?; subst; simpl length;
      try lia; exfalso; tauto.
Qed.

(** X2: in every accumulated state and for every class, the ground-truth
    occurrences split into the true positives and the recorded wrong
    predictions: [total_per_class[i] = correct_per_class[i] +
    len(wrong_predictions[i])], absent entries counting as zero. *)
Theorem support_splits_per_class stats i :
  accumulated stats →
  get0 (total_per_class stats) i
  = get0 (correct_per_class stats) i + get_len (wrong_predictions stats) i.
Proof. apply accumulated_support_splits. Qed.

Lemma accumulated_stats_batch2 : accumulated stats_batch2.
Proof. exact (reachable_accumulated _ reachable_stats_batch2). Defined.

Lemma support_splits_per_class_witness :
  accumulated stats_batch2
  ∧ get0 (total_per_class stats_batch2) 2
    = get0 (correct_per_class stats_batch2) 2
      + get_len (wrong_predictions stats_batch2) 2.
Proof.
  split; [exact accumulated_stats_batch2|].
  exact (support_splits_per_class stats_batch2 2 accumulated_stats_batch2).
Defined.

(** X3: in every accumulated state the predictions counted over all classes
    are as many as the ground-truth occurrences counted over all classes:
    every pair adds one to each side. *)
Theorem predictions_match_occurrences stats :
  accumulated stats →
  sum_values (predicted_as_class stats) = sum_values (total_per_class stats).
Proof.
  apply (accumulated_invariant
           (λ s, sum_values (predicted_as_class s)
                 = sum_values (total_per_class s))).
  - reflexivity.
  - intros s n Hs. exact Hs.
  - intros s [t p] Hs. unfold update_pair.
    case_decide; simpl; rewrite !sum_values_incr; lia.
Qed.

Lemma predictions_match_occurrences_witness :
  accumulated stats_batch2
  ∧ sum_values (predicted_as_class stats_batch2)
    = sum_values (total_per_class stats_batch2).
Proof.
  split; [exact accumulated_stats_batch2|].
  exact (predictions_match_occurrences stats_batch2 accumulated_stats_batch2).
Defined.

(** X4: every list stored in [wrong_predictions] is non-empty and never
    contains its own key: only a prediction different from the true label is
    appended, and an entry is created only by appending to it. *)
Theorem wrong_predictions_are_wrong stats k l :
  accumulated stats →
  wrong_predictions stats !! k = Some l →
  l ≠ [] ∧ k ∉ l.
Proof.
  intros Hacc. revert k l.
  apply (accumulated_invariant
           (λ s, ∀ k l, wrong_predictions s !! k = Some l → l ≠ [] ∧ k ∉ l));
    [| | |exact Hacc].
  - intros k l. simpl. by rewrite lookup_empty.
  - intros s n Hs. exact Hs.
  - intros s [t p] Hs k l. unfold update_pair.
    case_decide as Htp; simpl; [apply Hs|].
    unfold append_at. destruct (decide (t = k)) as [->|Hne].
    + rewrite lookup_insert_eq. intros [= <-]. split.
      * intros Hnil. by apply app_eq_nil in Hnil as [_ ?].
      * rewrite elem_of_app, list_elem_of_singleton. intros [Hin| ->]; [|done].
        destruct (wrong_predictions s !! k) as [old|] eqn:Hold; simpl in Hin.
        -- by destruct (Hs k old Hold).
        -- by apply elem_of_nil in Hin.
    + rewrite lookup_insert_ne by done. apply Hs.
Qed.

Lemma wrong_predictions_are_wrong_witness :
  accumulated stats_batch2
  ∧ wrong_predictions stats_batch2 !! 2 = Some [0]
  ∧ [0] ≠ [] ∧ 2 ∉ [0].
Proof.
  assert (wrong_predictions stats_batch2 !! 2 = Some [0]) as Hlookup
    by (vm_compute; reflexivity).
  split; [exact accumulated_stats_batch2|]. split; [exact Hlookup|].
  exact (wrong_predictions_are_wrong stats_batch2 2 [0]
           accumulated_stats_batch2 Hlookup).
Defined.

Lemma foldl_update_pair_correct_sum pairs stats :
  sum_values (correct_per_class (foldl update_pair stats pairs))
  = sum_values (correct_per_class stats) + count_agree pairs.
Proof.
  revert stats. induction pairs as [|[t p] pairs IH]; intros stats.
  - unfold count_agree. simpl. lia.
  - change (foldl update_pair stats ((t, p) :: pairs))
      with (foldl update_pair (update_pair stats (t, p)) pairs).
    rewrite IH, count_agree_cons. unfold update_pair, agree. simpl.
    case_decide as Htp; simpl.
    + rewrite bool_decide_eq_true_2 by done. rewrite sum_values_incr. lia.
    + rewrite bool_decide_eq_false_2 by done. lia.
Qed.

(** X5: after updates with equal-length sequences, [correct_total] is the sum
    of the per-class true positives: the count taken by the comparison and the
    counts taken in the loop agree. *)
Theorem correct_total_is_sum_of_true_positives stats :
  reachable stats →
  correct_total stats = sum_values (correct_per_class stats).
Proof.
  induction 1 as [|stats y_pred y_true stats' _ IH Hlen Hupd]; [reflexivity|].
  rewrite update_equal_length in Hupd by done. injection Hupd as <-.
  rewrite foldl_update_pair_correct_total, foldl_update_pair_correct_sum.
  simpl. lia.
Qed.

Lemma correct_total_is_sum_of_true_positives_witness :
  reachable stats_batch2
  ∧ correct_total stats_batch2 = sum_values (correct_per_class stats_batch2).
Proof.
  split; [exact reachable_stats_batch2|].
  exact (correct_total_is_sum_of_true_positives stats_batch2
           reachable_stats_batch2).
Defined.

(** ** Streaming the batches *)

Lemma update_pair_add_correct stats n pair :
  update_pair (add_correct stats n) pair = add_correct (update_pair stats pair) n.
Proof. destruct pair as [t p]. unfold update_pair. by case_decide. Qed.

Lemma foldl_update_pair_add_correct pairs stats n :
  foldl update_pair (add_correct stats n) pairs
  = add_correct (foldl update_pair stats pairs) n.
Proof.
  revert stats. induction pairs as [|p pairs IH]; intros stats; simpl; [done|].
  by rewrite update_pair_add_correct, IH.
Qed.

Lemma count_agree_app l1 l2 :
  count_agree (l1 ++ l2) = count_agree l1 + count_agree l2.
Proof. unfold count_agree. rewrite filter_app, length_app. lia. Qed.

Lemma add_correct_add_correct stats n m :
  add_correct (add_correct stats n) m = add_correct stats (n + m).
Proof. unfold add_correct. simpl. f_equal. lia. Qed.

(** X6: feeding two batches one after the other leaves the accumulator in the
    state that one update with the concatenated label sequences gives, the
    two sequences of each batch having equal lengths. *)
Theorem update_in_batches stats y_pred1 y_true1 y_pred2 y_true2 :
  length y_pred1 = length y_true1 →
  length y_pred2 = length y_true2 →
  _update_per_class_dict stats y_pred1 y_true1
    ≫= (λ stats1, _update_per_class_dict stats1 y_pred2 y_true2)
  = _update_per_class_dict stats (y_pred1 ++ y_pred2) (y_true1 ++ y_true2).
Proof.
  intros H1 H2.
  rewrite (update_equal_length stats y_pred1 y_true1) by done. simpl.
  rewrite update_equal_length by done.
  rewrite update_equal_length by (rewrite !length_app; lia).
  apply (f_equal Ok). rewrite zip_with_app by done.
  rewrite count_agree_app, foldl_app, !foldl_update_pair_add_correct.
  by rewrite add_correct_add_correct.
Qed.

Lemma update_in_batches_witness :
  length [0; 1; 1] = length [0; 0; 1]
  ∧ length [2; 0; 2] = length [2; 2; 2]
  ∧ _update_per_class_dict _initialize_per_class_dict [0; 1; 1] [0; 0; 1]
      ≫= (λ stats1, _update_per_class_dict stats1 [2; 0; 2] [2; 2; 2])
    = _update_per_class_dict _initialize_per_class_dict
        ([0; 1; 1] ++ [2; 0; 2]) ([0; 0; 1] ++ [2; 2; 2]).
Proof.
  split; [reflexivity|]. split; [reflexivity|].
  apply (update_in_batches _initialize_per_class_dict
           [0; 1; 1] [0; 0; 1] [2; 0; 2] [2; 2; 2]); reflexivity.
Defined.

(** ** The metrics engine: keys, ratios and aggregate bounds *)

Lemma accumulated_counts_ok stats : accumulated stats → counts_ok stats.
Proof.
  apply (accumulated_invariant counts_ok).
  - intros i. unfold get0. simpl. rewrite lookup_empty. simpl. lia.
  - intros s n Hs. exact Hs.
  - intros s pair. apply update_pair_counts_ok.
Qed.

(** The dictionary that a returning finalization builds. *)
Lemma compute_classification_metrics_inv
    (precision_score recall_score : list Z → list Z → result Qc)
    cpc tpc wp pac y_true y_pred n metrics :
  compute_classification_metrics precision_score recall_score
    cpc tpc wp pac y_true y_pred n = Ok metrics →
  let vars := foldl (class_step cpc tpc wp pac) loop_init (seqZ 0 n) in
  ∃ mp mr,
    n ≠ 0
    ∧ metrics = list_to_map
        [("per_class_precision", VDict (precision_dict vars));
         ("per_class_recall", VDict (recall_dict vars));
         ("per_class_f1", VDict (f1_dict vars));
         ("macro_precision", VNum mp);
         ("macro_recall", VNum mr);
         ("macro_f1", VNum (macro_f1_sum vars / Qc_of_Z n)%Qc);
         ("weighted_f1",
          VNum (if decide (0 < sum_values tpc)
                then (weighted_f1_sum vars / Qc_of_Z (sum_values tpc))%Qc
                else 0%Qc))].
Proof.
  intros H vars.
  destruct (decide (n = 0)) as [->|Hn].
  { by rewrite compute_classification_metrics_zero_classes in H. }
  destruct (precision_score y_true y_pred) as [mp|] eqn:Hp.
  - destruct (recall_score y_true y_pred) as [mr|] eqn:Hr.
    + exists mp, mr. split; [done|].
      rewrite (compute_classification_metrics_returns precision_score
                 recall_score cpc tpc wp pac y_true y_pred n mp mr Hn Hp Hr)
        in H.
      by injection H as <-.
    + unfold compute_classification_metrics in H.
      apply bind_Ok in H as (? & _ & H). apply bind_Ok in H as (? & _ & H).
      apply bind_Ok in H as (? & ? & _). congruence.
  - unfold compute_classification_metrics in H.
    apply bind_Ok in H as (? & _ & H). apply bind_Ok in H as (? & ? & _).
    congruence.
Qed.

(** X7: the three per-class dictionaries of a returned result have an entry
    for exactly the classes [0 .. num_classes-1]: a label outside that range
    is not reported even when it occurs in the counts, and a class inside it
    is reported even when it never occurred. *)
Theorem per_class_keys_are_the_class_range
    (precision_score recall_score : list Z → list Z → result Qc)
    cpc tpc wp pac y_true y_pred n metrics :
  compute_classification_metrics precision_score recall_score
    cpc tpc wp pac y_true y_pred n = Ok metrics →
  ∃ pd rd fd,
    metrics !! "per_class_precision" = Some (VDict pd)
    ∧ metrics !! "per_class_recall" = Some (VDict rd)
    ∧ metrics !! "per_class_f1" = Some (VDict fd)
    ∧ ∀ i, (is_Some (pd !! i) ↔ 0 ≤ i < n)
           ∧ (is_Some (rd !! i) ↔ 0 ≤ i < n)
           ∧ (is_Some (fd !! i) ↔ 0 ≤ i < n).
Proof.
  intros H. apply compute_classification_metrics_inv in H as (mp & mr & _ & ->).
  eexists _, _, _. split; [reflexivity|]. split; [reflexivity|].
  split; [reflexivity|]. intros i.
  assert (i ∈ seqZ 0 n ↔ 0 ≤ i < n) as Hin by (rewrite elem_of_seqZ; lia).
  assert (∀ (d : gmap Z Qc) v,
            d !! i = (if decide (i ∈ seqZ 0 n) then Some v else None) →
            is_Some (d !! i) ↔ 0 ≤ i < n) as Hiff.
  { intros d v ->. case_decide as Hi.
    - split; [intros _; by apply Hin | intros _; by eexists].
    - split; [by intros [? ?] | intros Hx; exfalso; apply Hi, Hin, Hx]. }
  split; [|split]; eapply Hiff.
  - by rewrite foldl_class_step_precision.
  - by rewrite foldl_class_step_recall.
  - by rewrite foldl_class_step_f1.
Qed.

Lemma per_class_keys_are_the_class_range_witness :
  is_Ok (compute_classification_metrics macro_precision_score macro_recall_score
           (correct_per_class stats_batch2) (total_per_class stats_batch2)
           (wrong_predictions stats_batch2) (predicted_as_class stats_batch2)
           pass_true pass_pred 2) = true
  ∧ ∃ pd rd fd,
      unwrap ∅ (compute_classification_metrics
                  macro_precision_score macro_recall_score
                  (correct_per_class stats_batch2) (total_per_class stats_batch2)
                  (wrong_predictions stats_batch2)
                  (predicted_as_class stats_batch2)
                  pass_true pass_pred 2) !! "per_class_precision"
      = Some (VDict pd)
      ∧ unwrap ∅ (compute_classification_metrics
                    macro_precision_score macro_recall_score
                    (correct_per_class stats_batch2)
                    (total_per_class stats_batch2)
                    (wrong_predictions stats_batch2)
                    (predicted_as_class stats_batch2)
                    pass_true pass_pred 2) !! "per_class_recall"
        = Some (VDict rd)
      ∧ unwrap ∅ (compute_classification_metrics
                    macro_precision_score macro_recall_score
                    (correct_per_class stats_batch2)
                    (total_per_class stats_batch2)
                    (wrong_predictions stats_batch2)
                    (predicted_as_class stats_batch2)
                    pass_true pass_pred 2) !! "per_class_f1"
        = Some (VDict fd)
      ∧ ∀ i, (is_Some (pd !! i) ↔ 0 ≤ i < 2)
             ∧ (is_Some (rd !! i) ↔ 0 ≤ i < 2)
             ∧ (is_Some (fd !! i) ↔ 0 ≤ i < 2).
Proof.
  assert (is_Ok (compute_classification_metrics
                   macro_precision_score macro_recall_score
                   (correct_per_class stats_batch2) (total_per_class stats_batch2)
                   (wrong_predictions stats_batch2)
                   (predicted_as_class stats_batch2)
                   pass_true pass_pred 2) = true) as Hrun
    by (vm_compute; reflexivity).
  split; [exact Hrun|].
  exact (per_class_keys_are_the_class_range _ _ _ _ _ _ _ _ _ _
           (is_Ok_unwrap ∅ _ Hrun)).
Defined.

(** X8: for accumulated counts, the precision of a class is its true
    positives over the times it was predicted and its recall is its true
    positives over its ground-truth occurrences, each being 0 when its
    denominator is 0: the recall computed from the length of the
    wrong-prediction list is the usual one. *)
Theorem rates_are_the_usual_ratios stats i :
  accumulated stats →
  let tp := get0 (correct_per_class stats) i in
  let predicted := get0 (predicted_as_class stats) i in
  let support := get0 (total_per_class stats) i in
  class_precision (correct_per_class stats) (predicted_as_class stats) i
  = (if decide (0 < predicted) then (Qc_of_Z tp / Qc_of_Z predicted)%Qc
     else 0%Qc)
  ∧ class_recall (correct_per_class stats) (wrong_predictions stats) i
    = (if decide (0 < support) then (Qc_of_Z tp / Qc_of_Z support)%Qc
       else 0%Qc).
Proof.
  intros Hacc tp predicted support.
  pose proof (accumulated_support_splits stats i Hacc) as Hsplit.
  unfold class_precision, class_recall, rate, fp_of, fn_of, tp_of.
  fold tp predicted support in Hsplit |- *.
  replace (tp + (predicted - tp)) with predicted by lia.
  rewrite <- Hsplit. done.
Qed.

Lemma rates_are_the_usual_ratios_witness :
  accumulated stats_batch2
  ∧ class_precision (correct_per_class stats_batch2)
                    (predicted_as_class stats_batch2) 2
    = (if decide (0 < get0 (predicted_as_class stats_batch2) 2)
       then (Qc_of_Z (get0 (correct_per_class stats_batch2) 2)
             / Qc_of_Z (get0 (predicted_as_class stats_batch2) 2))%Qc
       else 0%Qc)
  ∧ class_recall (correct_per_class stats_batch2)
                 (wrong_predictions stats_batch2) 2
    = (if decide (0 < get0 (total_per_class stats_batch2) 2)
       then (Qc_of_Z (get0 (correct_per_class stats_batch2) 2)
             / Qc_of_Z (get0 (total_per_class stats_batch2) 2))%Qc
       else 0%Qc).
Proof.
  split; [exact accumulated_stats_batch2|].
  exact (rates_are_the_usual_ratios stats_batch2 2 accumulated_stats_batch2).
Defined.

Local Open Scope Qc_scope.

Lemma class_f1_unit_interval stats i :
  counts_ok stats →
  0 ≤ class_f1 (correct_per_class stats) (wrong_predictions stats)
               (predicted_as_class stats) i ≤ 1.
Proof.
  intros Hok. destruct (Hok i) as (Htp & Hpred & _).
  unfold class_f1, class_precision, class_recall.
  apply f1_unit_interval; apply rate_unit_interval; try done.
  - unfold fp_of, tp_of. lia.
  - unfold fn_of, get_len. lia.
Qed.

Lemma sum_Qc_unit_terms (f : Z → Qc) (l : list Z) :
  (∀ i, 0 ≤ f i ≤ 1) →
  0 ≤ sum_Qc (map f l) ≤ Qc_of_Z (Z.of_nat (length l)).
Proof.
  intros Hf. induction l as [|i l [IH0 IH1]]; simpl sum_Qc.
  - change (0 ≤ 0 ≤ Qc_of_Z 0). rewrite Z2Qc_inj_0. split; apply Qcle_refl.
  - destruct (Hf i) as [H0 H1]. split.
    + by apply Qcplus_nonneg_nonneg.
    + simpl length. rewrite Nat2Z.inj_succ, <- Z.add_1_l, Z2Qc_inj_add, Z2Qc_inj_1.
      by apply Qcplus_le_compat.
Qed.

Lemma sum_Qc_weighted_terms (f : Z → Qc) (w : Z → Z) (l : list Z) :
  (∀ i, 0 ≤ f i ≤ 1) → (∀ i, (0 ≤ w i)%Z) →
  0 ≤ sum_Qc (map (λ i, f i * Qc_of_Z (w i)) l) ≤ Qc_of_Z (sum_over w l).
Proof.
  intros Hf Hw. induction l as [|i l [IH0 IH1]]; simpl sum_Qc; simpl sum_over.
  - change (0 ≤ 0 ≤ Qc_of_Z 0). rewrite Z2Qc_inj_0. split; apply Qcle_refl.
  - destruct (Hf i) as [H0 H1]. pose proof (Qc_of_Z_nonneg _ (Hw i)) as Hwi.
    split.
    + apply Qcplus_nonneg_nonneg; [by apply Qcmult_nonneg_nonneg | done].
    + rewrite Z2Qc_inj_add. apply Qcplus_le_compat; [|done].
      rewrite <- (Qcmult_1_l (Qc_of_Z (w i))) at 2.
      by apply Qcmult_le_compat_r.
Qed.

Local Close Scope Qc_scope.

Lemma sum_values_insert_fresh (m : gmap Z Z) k x :
  m !! k = None → sum_values (<[k := x]> m) = x + sum_values m.
Proof. apply (sum_with_insert_fresh (λ v, v)). Qed.

Lemma sum_values_delete (m : gmap Z Z) k :
  sum_values m = get0 m k + sum_values (delete k m).
Proof.
  unfold get0. destruct (m !! k) as [v|] eqn:Hk; simpl.
  - rewrite <- (insert_delete_id m k v) at 1 by done.
    rewrite sum_values_insert_fresh by apply lookup_delete_eq. done.
  - by rewrite delete_id.
Qed.

Lemma sum_values_nonneg (m : gmap Z Z) :
  (∀ i, 0 ≤ get0 m i) → 0 ≤ sum_values m.
Proof.
  induction m as [|k x m Hk IH] using map_ind; intros Hm.
  - unfold sum_values. by rewrite map_fold_empty.
  - rewrite sum_values_insert_fresh by done.
    pose proof (Hm k) as Hx. unfold get0 in Hx. rewrite lookup_insert_eq in Hx.
    simpl in Hx. assert (0 ≤ sum_values m); [|lia].
    apply IH. intros i. destruct (decide (k = i)) as [<-|Hne].
    + unfold get0. by rewrite Hk.
    + specialize (Hm i). unfold get0 in *.
      by rewrite lookup_insert_ne in Hm.
Qed.

Lemma sum_over_le_sum_values (m : gmap Z Z) (l : list Z) :
  (∀ i, 0 ≤ get0 m i) → NoDup l → sum_over (get0 m) l ≤ sum_values m.
Proof.
  revert m. induction l as [|k l IH]; intros m Hm Hnd; simpl.
  - by apply sum_values_nonneg.
  - apply NoDup_cons in Hnd as [Hk Hnd].
    rewrite (sum_values_delete m k).
    assert (sum_over (get0 m) l = sum_over (get0 (delete k m)) l) as ->.
    { clear -Hk. induction l as [|j l IH]; simpl; [done|].
      apply not_elem_of_cons in Hk as [Hne Hk]. rewrite IH by done.
      unfold get0. by rewrite lookup_delete_ne. }
    assert (sum_over (get0 (delete k m)) l ≤ sum_values (delete k m)); [|lia].
    apply IH; [|done]. intros i. unfold get0.
    destruct (decide (k = i)) as [<-|Hne].
    + by rewrite lookup_delete_eq.
    + rewrite lookup_delete_ne by done. apply Hm.
Qed.

Lemma foldl_class_step_weighted_sum cpc tpc wp pac classes vars :
  weighted_f1_sum (foldl (class_step cpc tpc wp pac) vars classes)
  = (weighted_f1_sum vars
     + sum_Qc (map (λ i, class_f1 cpc wp pac i * Qc_of_Z (get0 tpc i)) classes))%Qc.
Proof.
  revert vars. induction classes as [|i classes IH]; intros vars; simpl.
  - by rewrite Qcplus_0_r.
  - rewrite IH. simpl. unfold class_f1. by rewrite Qcplus_assoc.
Qed.

(** X9: for accumulated counts, the [macro_f1] and the [weighted_f1] of a
    returned result lie between 0 and 1, whatever the class count and
    whichever labels occur in the counts. *)
Theorem aggregate_f1_in_unit_interval
    (precision_score recall_score : list Z → list Z → result Qc)
    (stats : Stats) (y_true y_pred : list Z) (n : Z) (metrics : Metrics) :
  accumulated stats →
  compute_classification_metrics precision_score recall_score
    (correct_per_class stats) (total_per_class stats)
    (wrong_predictions stats) (predicted_as_class stats)
    y_true y_pred n = Ok metrics →
  ∃ macro_f1 weighted_f1,
    metrics !! "macro_f1" = Some (VNum macro_f1)
    ∧ metrics !! "weighted_f1" = Some (VNum weighted_f1)
    ∧ (0 ≤ macro_f1 ≤ 1)%Qc ∧ (0 ≤ weighted_f1 ≤ 1)%Qc.
Proof.
  intros Hacc H. pose proof (accumulated_counts_ok stats Hacc) as Hok.
  apply compute_classification_metrics_inv in H as (mp & mr & Hn & ->).
  eexists _, _. split; [reflexivity|]. split; [reflexivity|].
  pose proof (class_f1_unit_interval stats) as Hf1.
  split.
  - rewrite foldl_class_step_macro_sum. simpl macro_f1_sum.
    rewrite Qcplus_0_l.
    destruct (sum_Qc_unit_terms
                (class_f1 (correct_per_class stats) (wrong_predictions stats)
                          (predicted_as_class stats))
                (seqZ 0 n) (λ i, Hf1 i Hok)) as [H0 H1].
    rewrite length_seqZ in H1.
    destruct (decide (0 < n)) as [Hpos|Hneg].
    + rewrite Z2Nat.id in H1 by lia.
      apply Qcdiv_unit_interval; [done | done | by apply Qc_of_Z_pos].
    + rewrite seqZ_nil by lia. simpl. unfold Qcdiv. rewrite Qcmult_0_l.
      split; [apply Qcle_refl | done].
  - case_decide as Htotal; [|split; [apply Qcle_refl | done]].
    rewrite foldl_class_step_weighted_sum. simpl weighted_f1_sum.
    rewrite Qcplus_0_l.
    assert (∀ i, 0 ≤ get0 (total_per_class stats) i) as Hsupport.
    { intros i. destruct (Hok i) as (? & _ & ?). lia. }
    destruct (sum_Qc_weighted_terms
                (class_f1 (correct_per_class stats) (wrong_predictions stats)
                          (predicted_as_class stats))
                (get0 (total_per_class stats)) (seqZ 0 n)
                (λ i, Hf1 i Hok) Hsupport) as [H0 H1].
    apply Qcdiv_unit_interval; [done| |by apply Qc_of_Z_pos].
    eapply Qcle_trans; [exact H1|].
    apply (proj1 (Z2Qc_inj_le _ _)).
    apply sum_over_le_sum_values; [done | apply NoDup_seqZ].
Qed.

Lemma aggregate_f1_in_unit_interval_witness :
  accumulated stats_batch2
  ∧ is_Ok (compute_classification_metrics
             macro_precision_score macro_recall_score
             (correct_per_class stats_batch2) (total_per_class stats_batch2)
             (wrong_predictions stats_batch2) (predicted_as_class stats_batch2)
             pass_true pass_pred 7) = true
  ∧ ∃ macro_f1 weighted_f1,
      unwrap ∅ (compute_classification_metrics
                  macro_precision_score macro_recall_score
                  (correct_per_class stats_batch2) (total_per_class stats_batch2)
                  (wrong_predictions stats_batch2)
                  (predicted_as_class stats_batch2)
                  pass_true pass_pred 7) !! "macro_f1"
      = Some (VNum macro_f1)
      ∧ unwrap ∅ (compute_classification_metrics
                    macro_precision_score macro_recall_score
                    (correct_per_class stats_batch2)
                    (total_per_class stats_batch2)
                    (wrong_predictions stats_batch2)
                    (predicted_as_class stats_batch2)
                    pass_true pass_pred 7) !! "weighted_f1"
        = Some (VNum weighted_f1)
      ∧ (0 ≤ macro_f1 ≤ 1)%Qc ∧ (0 ≤ weighted_f1 ≤ 1)%Qc.
Proof.
  assert (is_Ok (compute_classification_metrics
                   macro_precision_score macro_recall_score
                   (correct_per_class stats_batch2) (total_per_class stats_batch2)
                   (wrong_predictions stats_batch2)
                   (predicted_as_class stats_batch2)
                   pass_true pass_pred 7) = true) as Hrun
    by (vm_compute; reflexivity).
  split; [exact accumulated_stats_batch2|]. split; [exact Hrun|].
  exact (aggregate_f1_in_unit_interval _ _ stats_batch2 _ _ _ _
           accumulated_stats_batch2 (is_Ok_unwrap ∅ _ Hrun)).
Defined.

(** ** The evaluation entry point: errors and the reported accuracy *)

Lemma for_each_ext {S A} (body body' : S → A → result S) (s : S) (l : list A) :
  (∀ s x, body s x = body' s x) → for_each body s l = for_each body' s l.
Proof.
  intros Hext. revert s. induction l as [|x l IH]; intros s; simpl; [done|].
  rewrite Hext. destruct (body' s x); simpl; [apply IH | done].
Qed.

Section TestModelFacts.
Variables precision_score recall_score : list Z → list Z → result Qc.
Context {Data : Type}.

(** X10: [test_model] fails before it reads any batch when it is given an
    empty list of models ([IndexError]) or when its first model has no
    [num_classes] attribute, as is the case of [SmallNetwork]
    ([AttributeError]).  The attribute of the models after the first is never
    read: the result is the same when they have none. *)
Theorem test_model_needs_num_classes (test_loader : DataLoader Data)
    (verbose : bool) (forward : Data → Tensor) (rest : list (Model Data)) :
  test_model precision_score recall_score (inr []) test_loader verbose
  = Raise IndexError
  ∧ test_model precision_score recall_score
      (inl (small_network_object forward)) test_loader verbose
    = Raise AttributeError
  ∧ test_model precision_score recall_score
      (inr (small_network_object forward :: rest)) test_loader verbose
    = Raise AttributeError
  ∧ ∀ n, test_model precision_score recall_score
           (inr (resnet18_object forward n :: rest)) test_loader verbose
         = test_model precision_score recall_score
             (inr (resnet18_object forward n :: map without_attribute rest))
             test_loader verbose.
Proof.
  repeat split; try reflexivity. intros n.
  unfold test_model. simpl. f_equal.
  apply for_each_ext. intros vars sample.
  unfold test_batch, get_models_predictions. simpl.
  rewrite map_map. reflexivity.
Qed.

Lemma test_batch_needs_dataset_size (models : list (Model Data))
    (test_loader : DataLoader Data) n vars sample :
  dataset_len test_loader = 0 →
  raises (test_batch precision_score recall_score models test_loader n
            vars sample).
Proof.
  intros Hlen. unfold test_batch, _finalize_metrics, py_div. rewrite Hlen.
  destruct (get_models_predictions _ _); simpl; [|done].
  destruct (torch_argmax_dim1 _); simpl; [|done].
  destruct (_update_per_class_dict _ _ _); simpl; done.
Qed.

(** X11: over a loader whose dataset has declared size 0, [test_model] never
    returns: with no batch [metrics] stays unbound, and with a batch the
    accuracy divides by the size. *)
Theorem test_model_needs_dataset_size (models : Model Data + list (Model Data))
    (test_loader : DataLoader Data) (verbose : bool) :
  dataset_len test_loader = 0 →
  raises (test_model precision_score recall_score models test_loader verbose).
Proof.
  intros Hlen.
  destruct (test_model precision_score recall_score models test_loader verbose)
    as [metrics|e] eqn:H; simpl; [|done].
  apply test_model_Ok in H as (n & vars & Hloop & Hmetrics).
  destruct (batches test_loader) as [|s samples]; simpl in Hloop.
  - injection Hloop as <-. done.
  - apply bind_Ok in Hloop as (vars1 & Hstep & _).
    pose proof (test_batch_needs_dataset_size (_ensure_model_list models)
                  test_loader n
                  {| tv_stats := _initialize_per_class_dict;
                     tv_y_true_all := []; tv_y_pred_all := [];
                     tv_metrics := None |} s Hlen) as Hraise.
    by rewrite Hstep in Hraise.
Qed.

End TestModelFacts.

Lemma test_model_needs_dataset_size_witness :
  dataset_len (mkLoader [mkSample [0; 1; 1] [0; 0; 1]] 0) = 0
  ∧ raises (test_model macro_precision_score macro_recall_score
              (inl example_model) (mkLoader [mkSample [0; 1; 1] [0; 0; 1]] 0)
              false).
Proof.
  split; [reflexivity|].
  apply (test_model_needs_dataset_size macro_precision_score macro_recall_score
           (inl example_model) (mkLoader [mkSample [0; 1; 1] [0; 0; 1]] 0) false).
  reflexivity.
Defined.

Section TestModelAccuracy.
Variables precision_score recall_score : list Z → list Z → result Qc.
Context {Data : Type}.
Variables (models : list (Model Data)) (test_loader : DataLoader Data).
Variable num_classes : Z.

Lemma _finalize_metrics_accuracy stats y_true_all y_pred_all metrics :
  _finalize_metrics stats y_true_all y_pred_all test_loader
    (compute_classification_metrics precision_score recall_score) num_classes
  = Ok metrics →
  metrics !! "overall_accuracy"
  = Some (VNum (Qc_of_Z (correct_total stats)
                / Qc_of_Z (dataset_len test_loader) * Qc_of_Z 100)%Qc).
Proof.
  unfold _finalize_metrics. intros H.
  apply bind_Ok in H as (ratio & Hratio & H).
  apply bind_Ok in H as (m0 & _ & H). injection H as <-.
  unfold py_div in Hratio. case_decide; [done|]. injection Hratio as <-.
  rewrite lookup_insert_ne by done. rewrite lookup_insert_ne by done.
  by rewrite lookup_insert_eq.
Qed.

Lemma test_batch_accuracy vars sample vars' :
  test_batch precision_score recall_score models test_loader num_classes
    vars sample = Ok vars' →
  well_sized models sample →
  accuracy_invariant test_loader vars →
  accuracy_invariant test_loader vars'.
Proof.
  unfold test_batch. intros H Hsized (Hlen & Hcorrect & _).
  apply bind_Ok in H as (logits & Hlogits & H).
  apply bind_Ok in H as (preds & Hpreds & H).
  apply bind_Ok in H as (stats & Hstats & H).
  apply bind_Ok in H as (metrics & Hmetrics & H).
  injection H as <-.
  assert (length preds = length (label sample)) as Hsame.
  { apply Hsized. unfold predict. rewrite Hlogits. exact Hpreds. }
  rewrite update_equal_length in Hstats by done. injection Hstats as <-.
  unfold accuracy_invariant. simpl.
  rewrite foldl_update_pair_correct_total. simpl.
  split; [rewrite !length_app; lia|]. split.
  - rewrite zip_with_app by done. rewrite count_agree_app. lia.
  - intros m [= <-].
    apply _finalize_metrics_accuracy in Hmetrics. rewrite Hmetrics.
    by rewrite foldl_update_pair_correct_total.
Qed.

Lemma for_each_test_batch_accuracy samples vars vars' :
  for_each (test_batch precision_score recall_score models test_loader
              num_classes) vars samples = Ok vars' →
  Forall (well_sized models) samples →
  accuracy_invariant test_loader vars →
  accuracy_invariant test_loader vars'.
Proof.
  revert vars. induction samples as [|s samples IH]; intros vars H Hall Hinv;
    simpl in H.
  - by injection H as <-.
  - apply bind_Ok in H as (vars1 & Hstep & H).
    apply Forall_cons in Hall as [Hs Hall].
    apply (IH vars1 H Hall). by eapply test_batch_accuracy.
Qed.

End TestModelAccuracy.

(** X12: when every batch has as many labels as the ensemble predicts for it,
    the [overall_accuracy] that [test_model] returns is the number of
    positions at which the returned [correct_labels] and [predicted_labels]
    agree, divided by the declared dataset size and multiplied by 100. *)
Theorem overall_accuracy_counts_agreements
    (precision_score recall_score : list Z → list Z → result Qc)
    {Data : Type} (models : Model Data + list (Model Data))
    (test_loader : DataLoader Data) (verbose : bool) (metrics : Metrics) :
  test_model precision_score recall_score models test_loader verbose
  = Ok metrics →
  Forall (well_sized (_ensure_model_list models)) (batches test_loader) →
  ∃ y_true_all y_pred_all,
    metrics !! "correct_labels" = Some (VLabels y_true_all)
    ∧ metrics !! "predicted_labels" = Some (VLabels y_pred_all)
    ∧ metrics !! "overall_accuracy"
      = Some (VNum (Qc_of_Z (count_agree (zip y_true_all y_pred_all))
                    / Qc_of_Z (dataset_len test_loader) * Qc_of_Z 100)%Qc).
Proof.
  intros H Hsized.
  apply test_model_Ok in H as (n & vars & Hloop & Hmetrics).
  pose proof (for_each_test_batch precision_score recall_score _ _ _ _ _ _ Hloop)
    as [_ Hlast].
  destruct Hlast as [[_ ->]|(m & Hm & Hc)]; [done|].
  rewrite Hmetrics in Hm. injection Hm as <-.
  destruct Hc as (_ & _ & _ & _ & _ & _ & _ & _ & _ & Htrue & Hpred).
  exists (tv_y_true_all vars), (tv_y_pred_all vars).
  split; [exact Htrue|]. split; [exact Hpred|].
  apply for_each_test_batch_accuracy in Hloop as (_ & Hcorrect & Hacc);
    [|exact Hsized|].
  - rewrite <- Hcorrect. by apply Hacc.
  - unfold accuracy_invariant. simpl. repeat split; done.
Qed.

Lemma example_loader_well_sized :
  Forall (well_sized (_ensure_model_list (inl example_model)))
         (batches example_loader).
Proof.
  repeat constructor; intros preds Hpreds; vm_compute in Hpreds;
    injection Hpreds as <-; reflexivity.
Defined.

Lemma overall_accuracy_counts_agreements_witness :
  test_model macro_precision_score macro_recall_score
    (inl example_model) example_loader false = Ok example_metrics
  ∧ Forall (well_sized (_ensure_model_list (inl example_model)))
           (batches example_loader)
  ∧ ∃ y_true_all y_pred_all,
      example_metrics !! "correct_labels" = Some (VLabels y_true_all)
      ∧ example_metrics !! "predicted_labels" = Some (VLabels y_pred_all)
      ∧ example_metrics !! "overall_accuracy"
        = Some (VNum (Qc_of_Z (count_agree (zip y_true_all y_pred_all))
                      / Qc_of_Z (dataset_len example_loader)
                      * Qc_of_Z 100)%Qc).
Proof.
  assert (test_model macro_precision_score macro_recall_score
            (inl example_model) example_loader false = Ok example_metrics)
    as Hrun by (apply is_Ok_unwrap; vm_compute; reflexivity).
  split; [exact Hrun|]. split; [exact example_loader_well_sized|].
  exact (overall_accuracy_counts_agreements _ _ _ _ _ _ Hrun
           example_loader_well_sized).
Defined.

(** ** The ensemble: shapes and errors *)

Lemma tensor_add_shape (a b : Tensor) :
  tensor_shape a = tensor_shape b →
  tensor_shape (tensor_add a b) = tensor_shape a.
Proof.
  unfold tensor_shape, tensor_add. revert b.
  induction a as [|r a IH]; intros [|r' b] H; simpl in *; try done.
  injection H as Hr Hrest. f_equal; [|by apply IH].
  rewrite length_zip_with. lia.
Qed.

Lemma foldl_tensor_add_shape (t : Tensor) (ts : list Tensor) :
  Forall (λ u, tensor_shape u = tensor_shape t) ts →
  tensor_shape (foldl tensor_add t ts) = tensor_shape t.
Proof.
  intros Hall. cut (∀ acc, tensor_shape acc = tensor_shape t →
                           tensor_shape (foldl tensor_add acc ts)
                           = tensor_shape t); [by intros H; apply H|].
  induction Hall as [|u ts Hu _ IH]; intros acc Hacc; simpl; [done|].
  apply IH. rewrite tensor_add_shape; congruence.
Qed.

Lemma tensor_div_shape (a : Tensor) (n : Qc) :
  tensor_shape (tensor_div a n) = tensor_shape a.
Proof.
  unfold tensor_shape, tensor_div.
  induction a as [|r a IH]; simpl; [done|]. by rewrite length_map, IH.
Qed.

Lemma same_shape_forallb (t : Tensor) (ts : list Tensor) :
  forallb (λ u, bool_decide (tensor_shape u = tensor_shape t)) ts = true
  ↔ Forall (λ u, tensor_shape u = tensor_shape t) ts.
Proof.
  induction ts as [|u ts IH]; simpl.
  - split; [constructor | done].
  - rewrite andb_true_iff, IH, Forall_cons, bool_decide_eq_true. done.
Qed.

(** X13: the ensemble prediction raises for an empty list of models and for
    models whose score tensors on the batch differ in shape; it returns
    otherwise, and what it returns has the shape of each model's scores. *)
Theorem ensemble_shape_and_errors {Data : Type} (m : Model Data)
    (rest : list (Model Data)) (batch : Data) :
  let same_shape (m' : Model Data) :=
    tensor_shape (forward m' batch) = tensor_shape (forward m batch) in
  get_models_predictions ([] : list (Model Data)) batch = Raise RuntimeError
  ∧ (Forall same_shape rest →
     ∃ scores, get_models_predictions (m :: rest) batch = Ok scores
               ∧ tensor_shape scores = tensor_shape (forward m batch))
  ∧ (¬ Forall same_shape rest →
     get_models_predictions (m :: rest) batch = Raise RuntimeError).
Proof.
  intros same_shape. split; [reflexivity|].
  unfold get_models_predictions. simpl.
  pose proof (same_shape_forallb (forward m batch)
                (map (λ model, forward model batch) rest)) as Hiff.
  rewrite Forall_map in Hiff.
  destruct (forallb _ _) eqn:Hb; simpl.
  - split; [|intros Hnot; exfalso; by apply Hnot, Hiff].
    intros _. eexists. split; [reflexivity|].
    rewrite tensor_div_shape. apply foldl_tensor_add_shape.
    apply Forall_map. by apply Hiff.
  - split; [|done]. intros Hall. apply Hiff in Hall. done.
Qed.

Lemma ensemble_shape_and_errors_witness :
  Forall (λ m', tensor_shape (forward m' [0; 1])
                = tensor_shape (forward example_model [0; 1]))
         [example_model]
  ∧ (∃ scores,
        get_models_predictions [example_model; example_model] [0; 1]
        = Ok scores
        ∧ tensor_shape scores = tensor_shape (forward example_model [0; 1]))
  ∧ ¬ Forall (λ m', tensor_shape (forward m' [0; 1])
                    = tensor_shape (forward example_model [0; 1]))
             [mkModel (λ _, []) None]
  ∧ get_models_predictions [example_model; mkModel (λ _, []) None] [0; 1]
    = Raise RuntimeError.
Proof.
  assert (Forall (λ m', tensor_shape (forward m' [0; 1])
                        = tensor_shape (forward example_model [0; 1]))
                 [example_model]) as Hsame by (repeat constructor).
  assert (¬ Forall (λ m', tensor_shape (forward m' [0; 1])
                          = tensor_shape (forward example_model [0; 1]))
                   [mkModel (λ _, []) None]) as Hdiff.
  { intros H. apply Forall_cons in H as [H _]. vm_compute in H. discriminate H. }
  split; [exact Hsame|]. split.
  - exact (proj1 (proj2 (ensemble_shape_and_errors example_model
                           [example_model] [0; 1])) Hsame).
  - split; [exact Hdiff|].
    exact (proj2 (proj2 (ensemble_shape_and_errors example_model
                           [mkModel (λ _, []) None] [0; 1])) Hdiff).
Defined.

(** ** The stopper over a run of observations *)

Section StopperRuns.
Import EarlyStopping.
Variables Model StateDict : Type.
Variable state_dict : Model → StateDict.

Lemma observe_all_snoc (self : t StateDict) obs val_loss model epoch :
  observe_all state_dict self (obs ++ [(val_loss, model, epoch)])
  = __call__ state_dict (observe_all state_dict self obs) val_loss model epoch.
Proof. unfold observe_all. by rewrite foldl_app. Qed.

Lemma call_keeps_early_stop (self : t StateDict) val_loss model epoch :
  early_stop self = true →
  early_stop (__call__ state_dict self val_loss model epoch) = true.
Proof.
  intros H. unfold __call__.
  destruct (best_score self); repeat case_decide; simpl; done.
Qed.

(** X14: the stop flag is never taken back: once [early_stop] is set, it stays
    set whatever is observed afterwards, improvements included. *)
Theorem early_stop_is_sticky (self : t StateDict) obs :
  early_stop self = true →
  early_stop (observe_all state_dict self obs) = true.
Proof.
  revert self. induction obs as [|[[val_loss model] epoch] obs IH];
    intros self H; simpl; [done|].
  by apply IH, call_keeps_early_stop.
Qed.

(** X15: for a stopper built with a positive patience, after any run of
    observations the counter is not negative, and as long as [early_stop] is
    not set it is below the patience. *)
Theorem counter_below_patience (patience : Z) (delta : Qc) obs :
  0 < patience →
  let self := observe_all state_dict (__init__ patience delta) obs in
  EarlyStopping.patience self = patience
  ∧ 0 ≤ counter self
  ∧ (early_stop self = false → counter self < patience).
Proof.
  intros Hpos. induction obs as [|[[val_loss model] epoch] obs IH] using rev_ind.
  - simpl. repeat split; [done | lia].
  - simpl. rewrite observe_all_snoc.
    destruct IH as (Hpat & H0 & Hlt).
    generalize dependent (observe_all state_dict (__init__ patience delta) obs).
    intros s Hpat H0 Hlt. unfold __call__.
    destruct (best_score s); repeat case_decide; simpl;
      repeat split; try done; try lia; intros Hstop; try lia; auto.
Qed.


Lemma call_keeps_parameters (self : t StateDict) val_loss model epoch :
  patience (__call__ state_dict self val_loss model epoch) = patience self
  ∧ delta (__call__ state_dict self val_loss model epoch) = delta self.
Proof.
  unfold __call__. destruct (best_score self); repeat case_decide; done.
Qed.

Lemma observe_all_keeps_parameters (self : t StateDict) obs :
  patience (observe_all state_dict self obs) = patience self
  ∧ delta (observe_all state_dict self obs) = delta self.
Proof.
  revert self. induction obs as [|[[val_loss model] epoch] obs IH];
    intros self; simpl; [done|].
  destruct (IH (__call__ state_dict self val_loss model epoch)) as [-> ->].
  apply call_keeps_parameters.
Qed.


(** X17: a run of observations none of which improves on the recorded best
    score leaves the best score and the snapshot as they are and adds its
    length to the counter.  If the counter thereby reaches the patience,
    [early_stop] is set and [epoch_stop] is the epoch of the last observation
    minus the patience; if it stays below, [early_stop] and [epoch_stop] are
    unchanged. *)
Theorem run_without_improvement (self : t StateDict) (best : Qc)
    (obs : list (Qc * Model * Z)) :
  best_score self = Some best →
  Forall (no_improvement best (delta self)) obs →
  let self' := observe_all state_dict self obs in
  counter self' = counter self + Z.of_nat (length obs)
  ∧ best_score self' = Some best
  ∧ best_model_state self' = best_model_state self
  ∧ (∀ o, last obs = Some o → patience self ≤ counter self' →
          early_stop self' = true ∧ epoch_stop self' = o.2 - patience self)
  ∧ (counter self' < patience self →
     early_stop self' = early_stop self ∧ epoch_stop self' = epoch_stop self).
Proof.
  intros Hbest. induction obs as [|[[loss m] e] obs IH] using rev_ind;
    intros Hall.
  - simpl. repeat split; try done; try lia.
  - apply Forall_app in Hall as [Hall Ho]. apply Forall_cons in Ho as [Ho _].
    destruct (IH Hall) as (Hc & Hb & Hs & _ & Hbelow). clear IH.
    simpl. rewrite observe_all_snoc, length_app. simpl length.
    pose proof (observe_all_keeps_parameters self obs) as [Hpat Hdelta].
    generalize dependent (observe_all state_dict self obs).
    intros s Hc Hb Hs Hbelow Hpat Hdelta.
    unfold no_improvement, obs_loss in Ho. simpl in Ho.
    unfold __call__. rewrite Hb, Hdelta, decide_True by done.
    rewrite Hpat. case_decide as Hstop; simpl.
    + split; [lia|]. split; [done|]. split; [done|]. split; [|lia].
      intros last_obs Hlast _. rewrite last_snoc in Hlast.
      by injection Hlast as <-.
    + split; [lia|]. split; [done|]. split; [done|]. split; [lia|].
      intros _. apply Hbelow. lia.
Qed.

End StopperRuns.

Lemma early_stop_is_sticky_witness :
  let stopped :=
    EarlyStopping.observe_all vector_state_dict
      (EarlyStopping.__init__ 2 0%Qc) (take 3 scenario) in
  EarlyStopping.early_stop stopped = true
  ∧ EarlyStopping.early_stop
      (EarlyStopping.observe_all vector_state_dict stopped (drop 3 scenario))
    = true.
Proof.
  intros stopped.
  assert (EarlyStopping.early_stop stopped = true) as H
    by (vm_compute; reflexivity).
  split; [exact H|].
  exact (early_stop_is_sticky _ _ vector_state_dict stopped (drop 3 scenario) H).
Defined.

Lemma counter_below_patience_witness :
  0 < 2
  ∧ let self :=
      EarlyStopping.observe_all vector_state_dict
        (EarlyStopping.__init__ 2 0%Qc) scenario in
    EarlyStopping.patience self = 2
    ∧ 0 ≤ EarlyStopping.counter self
    ∧ (EarlyStopping.early_stop self = false → EarlyStopping.counter self < 2).
Proof.
  split; [lia|].
  apply (counter_below_patience _ _ vector_state_dict 2 0%Qc scenario). lia.
Defined.


Lemma run_without_improvement_witness :
  let first :=
    EarlyStopping.observe_all vector_state_dict
      (EarlyStopping.__init__ 2 0%Qc) (take 1 scenario) in
  let worse := take 2 (drop 1 scenario) in
  let self' := EarlyStopping.observe_all vector_state_dict first worse in
  EarlyStopping.best_score first = Some (- 1)%Qc
  ∧ Forall (no_improvement (- 1)%Qc (EarlyStopping.delta first)) worse
  ∧ EarlyStopping.counter self'
    = EarlyStopping.counter first + Z.of_nat (length worse)
  ∧ EarlyStopping.best_score self' = Some (- 1)%Qc
  ∧ EarlyStopping.best_model_state self'
    = EarlyStopping.best_model_state first
  ∧ (∀ o, last worse = Some o →
          EarlyStopping.patience first ≤ EarlyStopping.counter self' →
          EarlyStopping.early_stop self' = true
          ∧ EarlyStopping.epoch_stop self'
            = o.2 - EarlyStopping.patience first)
  ∧ (EarlyStopping.counter self' < EarlyStopping.patience first →
     EarlyStopping.early_stop self' = EarlyStopping.early_stop first
     ∧ EarlyStopping.epoch_stop self' = EarlyStopping.epoch_stop first).
Proof.
  intros first worse self'.
  assert (EarlyStopping.best_score first = Some (- 1)%Qc) as Hbest
    by reflexivity.
  assert (Forall (no_improvement (- 1)%Qc (EarlyStopping.delta first)) worse)
    as Hworse by (repeat constructor).
  split; [exact Hbest|]. split; [exact Hworse|].
  exact (run_without_improvement _ _ vector_state_dict first (- 1)%Qc worse
           Hbest Hworse).
Defined.

(** ** The passes: what they return, and when *)

Section PassFacts.
Context {Data Net : Type}.
Variable forward : Net → Data → Tensor.
Variable loss_function : Tensor → list Z → Qc.
Variable optimizer_step : Net → Data → list Z → Net.
Variable data_len : Data → Z.

(** X18: over a loader without batches the passes do not return a loss:
    [train_model] divides by the number of losses ([ZeroDivisionError]) with
    or without [save]; [validate_model] reads [avg_loss], which no iteration
    has bound ([UnboundLocalError]), as soon as [verbose] or [save] is set, and
    returns the pair of zeros otherwise. *)
Theorem passes_over_an_empty_loader (model : Net) (size epoch verbose : Z)
    (save : bool) :
  train_model forward loss_function optimizer_step data_len
    model (mkTrainLoader [] size) epoch save verbose
  = Raise ZeroDivisionError
  ∧ validate_model forward loss_function model (mkTrainLoader [] size) save true
    = Raise UnboundLocalError
  ∧ validate_model forward loss_function model (mkTrainLoader [] size) true false
    = Raise UnboundLocalError
  ∧ validate_model forward loss_function model (mkTrainLoader [] size)
      false false
    = Ok (0%Qc, 0%Qc).
Proof. repeat split; reflexivity. Qed.

Lemma train_batch_verbose train_loader save verbose verbose' vars sample :
  l_dataset_len train_loader ≠ 0 →
  train_batch forward loss_function optimizer_step data_len
    train_loader save verbose vars sample
  = train_batch forward loss_function optimizer_step data_len
      train_loader save verbose' vars sample.
Proof.
  intros Hsize. unfold train_batch, py_div.
  destruct (count_corrects _ _); simpl; [|done].
  destruct (decide (l_dataset_len train_loader = 0)); [done|].
  repeat case_decide; reflexivity.
Qed.

Lemma for_each_validate_batch_binds model valid_loader save sample samples
    vars vars' :
  for_each (validate_batch forward loss_function model valid_loader save)
    vars (sample :: samples) = Ok vars' →
  is_Some (va_avg_loss vars') ∧ is_Some (va_accuracy vars').
Proof.
  revert sample vars. induction samples as [|s samples IH];
    intros sample vars H; simpl in H.
  - apply bind_Ok in H as (vars1 & Hstep & H). injection H as <-.
    unfold validate_batch in Hstep.
    apply bind_Ok in Hstep as (? & _ & Hstep).
    apply bind_Ok in Hstep as (? & _ & Hstep).
    apply bind_Ok in Hstep as (? & _ & Hstep).
    injection Hstep as <-. simpl. eauto.
  - apply bind_Ok in H as (vars1 & _ & H). by apply (IH s vars1).
Qed.

(** X19: [verbose] only reports.  When the declared dataset size is not 0,
    [train_model] returns or raises the same whatever [verbose] is; when the
    loader has a batch, so does [validate_model]. *)
Theorem verbose_only_reports (model : Net) (loader : Loader Data)
    (epoch verbose verbose' : Z) (save : bool) :
  (l_dataset_len loader ≠ 0 →
   train_model forward loss_function optimizer_step data_len
     model loader epoch save verbose
   = train_model forward loss_function optimizer_step data_len
       model loader epoch save verbose')
  ∧ (l_batches loader ≠ [] →
     validate_model forward loss_function model loader save true
     = validate_model forward loss_function model loader save false).
Proof.
  split.
  - intros Hsize. unfold train_model. f_equal.
    apply for_each_ext. intros vars sample. by apply train_batch_verbose.
  - intros Hbatches. unfold validate_model.
    destruct (l_batches loader) as [|s samples] eqn:Hl; [done|].
    destruct (for_each _ _ (s :: samples)) as [vars|e] eqn:Hloop; [|done].
    apply for_each_validate_batch_binds in Hloop as [[a Ha] _].
    simpl. by rewrite Ha.
Qed.

Lemma for_each_validate_batch_save model valid_loader samples vars vars' :
  for_each (validate_batch forward loss_function model valid_loader true)
    vars samples = Ok vars' →
  va_losses vars'
  = va_losses vars ++ valid_losses forward loss_function model samples
  ∧ (samples ≠ [] →
     (∃ a, va_avg_loss vars' = Some a ∧ average (va_losses vars') = Ok a)
     ∧ va_accuracy vars'
       = Some (Qc_of_Z (100 * va_corrects vars')
               / Qc_of_Z (l_dataset_len valid_loader))%Qc).
Proof.
  revert vars. induction samples as [|s samples IH]; intros vars H; simpl in H.
  - injection H as <-. unfold valid_losses. simpl. by rewrite app_nil_r.
  - apply bind_Ok in H as (vars1 & Hstep & H).
    destruct (IH _ H) as [Hlosses Hlast].
    unfold validate_batch in Hstep.
    apply bind_Ok in Hstep as (c & _ & Hstep).
    apply bind_Ok in Hstep as (a & Ha & Hstep).
    apply bind_Ok in Hstep as (acc & Hacc & Hstep).
    injection Hstep as <-. simpl in *.
    split.
    { rewrite Hlosses. unfold valid_losses. simpl. by rewrite <- app_assoc. }
    intros _. destruct samples as [|s' samples].
    + simpl in H. injection H as <-. simpl.
      split; [by exists a|].
      unfold py_div in Hacc. case_decide; [done|]. by injection Hacc as <-.
    + by apply Hlast.
Qed.

(** X20: with [save=True], over a loader with at least one batch and none of
    whose batches raises, [validate_model] returns the mean of the losses of
    all the batches, the model being the same for all, and 100 times the
    correct predictions counted over the pass divided by the declared dataset
    size. *)
Theorem validate_model_returns_mean_loss (model : Net) (valid_loader : Loader Data)
    (verbose : bool) (vars : ValidVars) :
  for_each (validate_batch forward loss_function model valid_loader true)
    valid_start (l_batches valid_loader) = Ok vars →
  l_batches valid_loader ≠ [] →
  let losses :=
    valid_losses forward loss_function model (l_batches valid_loader) in
  validate_model forward loss_function model valid_loader true verbose
  = Ok ((sum_Qc losses / Qc_of_Z (Z.of_nat (length losses)))%Qc,
        (Qc_of_Z (100 * va_corrects vars)
         / Qc_of_Z (l_dataset_len valid_loader))%Qc).
Proof.
  intros Hloop Hne losses. unfold validate_model.
  change {| va_losses := []; va_corrects := 0; va_avg_loss := None;
            va_accuracy := None |} with valid_start.
  rewrite Hloop. simpl.
  apply for_each_validate_batch_save in Hloop as [Hlosses Hlast].
  destruct (Hlast Hne) as ((a & Ha & Havg) & Hacc). simpl in Hlosses.
  fold losses in Hlosses. rewrite Hlosses in Havg.
  rewrite Ha, Hacc. unfold average, py_div in Havg.
  case_decide; [done|]. injection Havg as <-.
  by destruct verbose.
Qed.

End PassFacts.

Section PassResults.
Context {Data Net : Type}.
Variable forward : Net → Data → Tensor.
Variable loss_function : Tensor → list Z → Qc.
Variable optimizer_step : Net → Data → list Z → Net.
Variable data_len : Data → Z.

Lemma length_batch_losses model (samples : list (Batch Data)) :
  length (batch_losses forward loss_function optimizer_step model samples)
  = length samples.
Proof.
  revert model. induction samples as [|s samples IH]; intros model; simpl;
    [done | by rewrite IH].
Qed.

(** X21: with [save=True], over a loader with at least one batch, none of
    whose batches raises, and a declared dataset size other than 0,
    [train_model] returns the mean of the batch losses, each taken on the
    network as the optimizer left it after the batches before, and 100 times
    the correct predictions counted over the pass divided by the dataset
    size. *)
Theorem train_model_returns_mean_loss (model : Net) (train_loader : Loader Data)
    (epoch verbose : Z) (vars : TrainVars Net) :
  for_each (train_batch forward loss_function optimizer_step data_len
              train_loader true verbose)
    (train_start model) (l_batches train_loader) = Ok vars →
  l_batches train_loader ≠ [] →
  l_dataset_len train_loader ≠ 0 →
  let losses := batch_losses forward loss_function optimizer_step
                  model (l_batches train_loader) in
  train_model forward loss_function optimizer_step data_len
    model train_loader epoch true verbose
  = Ok ((sum_Qc losses / Qc_of_Z (Z.of_nat (length losses)))%Qc,
        (Qc_of_Z (100 * tr_corrects vars)
         / Qc_of_Z (l_dataset_len train_loader))%Qc).
Proof.
  intros Hloop Hne Hsize losses. unfold train_model.
  change {| tr_model := model; tr_losses := []; tr_corrects := 0;
            tr_batch_idx := 0 |} with (train_start model).
  rewrite Hloop. simpl.
  apply for_each_train_batch_save in Hloop. simpl in Hloop.
  fold losses in Hloop. rewrite Hloop.
  assert (Z.of_nat (length losses) ≠ 0) as Hlen.
  { unfold losses. rewrite length_batch_losses.
    destruct (l_batches train_loader); [done | simpl; lia]. }
  unfold average, py_div.
  destruct (decide (Z.of_nat (length losses) = 0)); [done|]. simpl.
  destruct (decide (l_dataset_len train_loader = 0)); [done|]. done.
Qed.

Lemma count_corrects_bound (y_pred : Tensor) (label : list Z) c :
  count_corrects y_pred label = Ok c → 0 ≤ c ≤ Z.of_nat (length label).
Proof.
  unfold count_corrects. intros H.
  apply bind_Ok in H as (preds & _ & H). case_decide as Hlen; [|done].
  injection H as <-. unfold tensor_sum.
  pose proof (length_filter (λ b, b = true) (zip_with Z.eqb preds label)).
  rewrite length_zip_with in *. lia.
Qed.

Lemma for_each_train_batch_corrects train_loader save verbose samples vars vars' :
  for_each (train_batch forward loss_function optimizer_step data_len
              train_loader save verbose) vars samples = Ok vars' →
  tr_corrects vars ≤ tr_corrects vars' ≤ tr_corrects vars + labels_in samples.
Proof.
  revert vars. induction samples as [|s samples IH]; intros vars H; simpl in H.
  - injection H as <-. simpl. lia.
  - apply bind_Ok in H as (vars1 & Hstep & H).
    specialize (IH _ H). unfold train_batch in Hstep.
    apply bind_Ok in Hstep as (c & Hc & Hstep).
    apply bind_Ok in Hstep as (_ & _ & Hstep).
    injection Hstep as <-. apply count_corrects_bound in Hc.
    simpl in *. lia.
Qed.

Lemma for_each_validate_batch_corrects model valid_loader save samples
    vars vars' :
  for_each (validate_batch forward loss_function model valid_loader save)
    vars samples = Ok vars' →
  va_corrects vars ≤ va_corrects vars' ≤ va_corrects vars + labels_in samples.
Proof.
  revert vars. induction samples as [|s samples IH]; intros vars H; simpl in H.
  - injection H as <-. simpl. lia.
  - apply bind_Ok in H as (vars1 & Hstep & H).
    specialize (IH _ H). unfold validate_batch in Hstep.
    apply bind_Ok in Hstep as (c & Hc & Hstep).
    apply bind_Ok in Hstep as (? & _ & Hstep).
    apply bind_Ok in Hstep as (? & _ & Hstep).
    injection Hstep as <-. apply count_corrects_bound in Hc.
    simpl in *. lia.
Qed.

Lemma labels_in_nonneg (samples : list (Batch Data)) : 0 ≤ labels_in samples.
Proof. induction samples as [|s samples IH]; simpl; lia. Qed.

Lemma percentage_bounds (c size : Z) :
  0 ≤ c ≤ size → 0 < size →
  (0 ≤ Qc_of_Z (100 * c) / Qc_of_Z size ≤ Qc_of_Z 100)%Qc.
Proof.
  intros Hc Hsize.
  destruct (Qcdiv_unit_interval (Qc_of_Z c) (Qc_of_Z size)) as [H0 H1].
  { apply Qc_of_Z_nonneg. lia. }
  { apply (proj1 (Z2Qc_inj_le _ _)). lia. }
  { by apply Qc_of_Z_pos. }
  rewrite Z2Qc_inj_mul. unfold Qcdiv in *. rewrite <- Qcmult_assoc.
  assert (0 ≤ Qc_of_Z 100)%Qc as H100 by (apply Qc_of_Z_nonneg; lia).
  split.
  - by apply Qcmult_nonneg_nonneg.
  - rewrite <- (Qcmult_1_r (Qc_of_Z 100)) at 2.
    by apply Qcmult_le_mono_nonneg_l.
Qed.

(** X22: the accuracy returned by a pass is a percentage.  When the declared
    dataset size is at least the number of labels held by the batches, the
    accuracy that [train_model] and [validate_model] return with [save=True]
    lies between 0 and 100. *)
Theorem accuracy_is_a_percentage (model : Net) (loader : Loader Data)
    (epoch verbose : Z) (verbose' : bool) (avg_loss accuracy : Qc) :
  labels_in (l_batches loader) ≤ l_dataset_len loader →
  (train_model forward loss_function optimizer_step data_len
     model loader epoch true verbose = Ok (avg_loss, accuracy) →
   (0 ≤ accuracy ≤ Qc_of_Z 100)%Qc)
  ∧ (validate_model forward loss_function model loader true verbose'
     = Ok (avg_loss, accuracy) →
     (0 ≤ accuracy ≤ Qc_of_Z 100)%Qc).
Proof.
  intros Hsize. pose proof (labels_in_nonneg (l_batches loader)) as Hlabels.
  split; intros H.
  - unfold train_model in H.
    apply bind_Ok in H as (vars & Hloop & H).
    apply bind_Ok in H as (a & _ & H).
    apply bind_Ok in H as (acc & Hacc & H). injection H as _ <-.
    apply for_each_train_batch_corrects in Hloop. simpl in Hloop.
    unfold py_div in Hacc. case_decide; [done|]. injection Hacc as <-.
    apply percentage_bounds; lia.
  - unfold validate_model in H.
    apply bind_Ok in H as (vars & Hloop & H).
    apply bind_Ok in H as (_ & _ & H).
    destruct (l_batches loader) as [|s samples] eqn:Hl.
    { simpl in Hloop. injection Hloop as <-. done. }
    pose proof Hloop as Hloop'.
    apply for_each_validate_batch_save in Hloop' as [_ Hlast].
    destruct Hlast as ((a & Ha & _) & Hacc); [done|].
    rewrite Ha, Hacc in H. injection H as _ <-.
    apply for_each_validate_batch_corrects in Hloop. simpl va_corrects in Hloop.
    destruct (decide (l_dataset_len loader = 0)) as [Hzero|Hnz].
    + rewrite Hzero. unfold Qcdiv. rewrite Z2Qc_inj_0.
      change (/ 0)%Qc with 0%Qc. rewrite Qcmult_0_r.
      split; [apply Qcle_refl | apply Qc_of_Z_nonneg; lia].
    + apply percentage_bounds; lia.
Qed.

End PassResults.

Lemma verbose_only_reports_witness :
  l_dataset_len example_train_loader ≠ 0
  ∧ l_batches example_train_loader ≠ []
  ∧ train_model example_forward example_loss example_step example_len
      tt example_train_loader 0 true 2
    = train_model example_forward example_loss example_step example_len
        tt example_train_loader 0 true 0
  ∧ validate_model example_forward example_loss tt example_train_loader true true
    = validate_model example_forward example_loss tt example_train_loader
        true false.
Proof.
  assert (l_dataset_len example_train_loader ≠ 0) as Hsize by done.
  assert (l_batches example_train_loader ≠ []) as Hbatches by done.
  split; [exact Hsize|]. split; [exact Hbatches|].
  destruct (verbose_only_reports example_forward example_loss example_step
              example_len tt example_train_loader 0 2 0 true) as [Ht Hv].
  split; [exact (Ht Hsize) | exact (Hv Hbatches)].
Defined.

Lemma validate_model_returns_mean_loss_witness :
  let vars :=
    unwrap valid_start
      (for_each (validate_batch example_forward example_loss tt
                   example_train_loader true)
         valid_start (l_batches example_train_loader)) in
  for_each (validate_batch example_forward example_loss tt
              example_train_loader true)
    valid_start (l_batches example_train_loader) = Ok vars
  ∧ l_batches example_train_loader ≠ []
  ∧ validate_model example_forward example_loss tt example_train_loader
      true false
    = Ok ((sum_Qc (valid_losses example_forward example_loss tt
                     (l_batches example_train_loader))
           / Qc_of_Z (Z.of_nat (length
               (valid_losses example_forward example_loss tt
                  (l_batches example_train_loader)))))%Qc,
          (Qc_of_Z (100 * va_corrects vars)
           / Qc_of_Z (l_dataset_len example_train_loader))%Qc).
Proof.
  intros vars.
  assert (for_each (validate_batch example_forward example_loss tt
                      example_train_loader true)
            valid_start (l_batches example_train_loader) = Ok vars) as Hloop
    by (apply is_Ok_unwrap; vm_compute; reflexivity).
  assert (l_batches example_train_loader ≠ []) as Hbatches by done.
  split; [exact Hloop|]. split; [exact Hbatches|].
  exact (validate_model_returns_mean_loss example_forward example_loss tt
           example_train_loader false vars Hloop Hbatches).
Defined.

Lemma train_model_returns_mean_loss_witness :
  let vars :=
    unwrap (train_start tt)
      (for_each (train_batch example_forward example_loss example_step
                   example_len example_train_loader true 0)
         (train_start tt) (l_batches example_train_loader)) in
  for_each (train_batch example_forward example_loss example_step
              example_len example_train_loader true 0)
    (train_start tt) (l_batches example_train_loader) = Ok vars
  ∧ l_batches example_train_loader ≠ []
  ∧ l_dataset_len example_train_loader ≠ 0
  ∧ train_model example_forward example_loss example_step example_len
      tt example_train_loader 0 true 0
    = Ok ((sum_Qc (batch_losses example_forward example_loss example_step tt
                     (l_batches example_train_loader))
           / Qc_of_Z (Z.of_nat (length
               (batch_losses example_forward example_loss example_step tt
                  (l_batches example_train_loader)))))%Qc,
          (Qc_of_Z (100 * tr_corrects vars)
           / Qc_of_Z (l_dataset_len example_train_loader))%Qc).
Proof.
  intros vars.
  assert (for_each (train_batch example_forward example_loss example_step
                      example_len example_train_loader true 0)
            (train_start tt) (l_batches example_train_loader) = Ok vars)
    as Hloop by (apply is_Ok_unwrap; vm_compute; reflexivity).
  assert (l_batches example_train_loader ≠ []) as Hbatches by done.
  assert (l_dataset_len example_train_loader ≠ 0) as Hsize by done.
  split; [exact Hloop|]. split; [exact Hbatches|]. split; [exact Hsize|].
  exact (train_model_returns_mean_loss example_forward example_loss
           example_step example_len tt example_train_loader 0 0 vars
           Hloop Hbatches Hsize).
Defined.

Lemma accuracy_is_a_percentage_witness :
  let result :=
    unwrap (0%Qc, 0%Qc)
      (train_model example_forward example_loss example_step example_len
         tt example_train_loader 0 true 0) in
  labels_in (l_batches example_train_loader)
  ≤ l_dataset_len example_train_loader
  ∧ train_model example_forward example_loss example_step example_len
      tt example_train_loader 0 true 0 = Ok (result.1, result.2)
  ∧ (0 ≤ result.2 ≤ Qc_of_Z 100)%Qc.
Proof.
  intros result.
  assert (labels_in (l_batches example_train_loader)
          ≤ l_dataset_len example_train_loader) as Hsize
    by (vm_compute; discriminate).
  assert (train_model example_forward example_loss example_step example_len
            tt example_train_loader 0 true 0 = Ok (result.1, result.2)) as Hrun.
  { rewrite <- surjective_pairing. apply is_Ok_unwrap. vm_compute. reflexivity. }
  split; [exact Hsize|]. split; [exact Hrun|].
  exact (proj1 (accuracy_is_a_percentage example_forward example_loss
                  example_step example_len tt example_train_loader 0 0 false
                  result.1 result.2 Hsize) Hrun).
Defined.

(** ** The networks: what the constructors build *)

Lemma make_layer_tail acc out_channels k :
  foldl (λ '(layers, in_channels) stride,
           (layers ++ [BasicBlock.__init__ in_channels out_channels stride],
            out_channels))
        (acc, out_channels) (replicate k 1)
  = (acc ++ replicate k (BasicBlock.__init__ out_channels out_channels 1),
     out_channels).
Proof.
  revert acc. induction k as [|k IH]; intros acc; simpl.
  - by rewrite app_nil_r.
  - rewrite IH. by rewrite <- app_assoc.
Qed.

(** X23: [_make_layer] always builds at least one block, one more for every
    unit of [n_blocks] above 1.  The first block goes from the current
    [in_channels] to [out_channels] with the given stride; every further block
    goes from [out_channels] to [out_channels] with stride 1 and so has the
    identity as its shortcut; [in_channels] is [out_channels] afterwards. *)
Theorem make_layer_blocks (in_channels out_channels n_blocks stride : Z) :
  let rest :=
    replicate (Z.to_nat (n_blocks - 1))
              (BasicBlock.__init__ out_channels out_channels 1) in
  ResNet18._make_layer in_channels BasicBlock.__init__
    out_channels n_blocks stride
  = (BasicBlock.__init__ in_channels out_channels stride :: rest, out_channels)
  ∧ length (BasicBlock.__init__ in_channels out_channels stride :: rest)
    = Z.to_nat (Z.max 1 n_blocks)
  ∧ Forall (λ block, BasicBlock.shortcut block = []) rest.
Proof.
  intros rest. split; [|split].
  - unfold ResNet18._make_layer. simpl. by rewrite make_layer_tail.
  - unfold rest. simpl. rewrite length_replicate. lia.
  - unfold rest. apply Forall_replicate. unfold BasicBlock.__init__. simpl.
    rewrite decide_False; [done|]. intros [?|?]; done.
Qed.

(** The blocks of the four layers of [ResNet18], whatever [num_classes]. *)
Lemma ResNet18_layers num_classes :
  let net := ResNet18.__init__ num_classes in
  ResNet18.layer1 net
  = [BasicBlock.__init__ 64 64 1; BasicBlock.__init__ 64 64 1]
  ∧ ResNet18.layer2 net
    = [BasicBlock.__init__ 64 128 2; BasicBlock.__init__ 128 128 1]
  ∧ ResNet18.layer3 net
    = [BasicBlock.__init__ 128 256 2; BasicBlock.__init__ 256 256 1]
  ∧ ResNet18.layer4 net
    = [BasicBlock.__init__ 256 512 2; BasicBlock.__init__ 512 512 1]
  ∧ ResNet18.in_channels net = 512.
Proof. repeat split; reflexivity. Qed.

(** ** The networks: shapes through the forward passes *)

Lemma strided_positive n stride : 1 ≤ stride → 1 ≤ n → 1 ≤ strided n stride.
Proof.
  intros Hs Hn. unfold strided.
  assert (0 ≤ (n - 1) `div` stride) by (apply Z.div_pos; lia). lia.
Qed.

Lemma strided_1 n : strided n 1 = n.
Proof. unfold strided. rewrite Z.div_1_r. lia. Qed.

Lemma window_out_3_1 n stride : window_out n 3 stride 1 = strided n stride.
Proof. unfold window_out, strided. f_equal. f_equal. lia. Qed.

Lemma window_out_1_0 n stride : window_out n 1 stride 0 = strided n stride.
Proof. unfold window_out, strided. f_equal. f_equal. lia. Qed.

Lemma add_inplace_same (x : Shape) : add_inplace x x = Ok x.
Proof.
  unfold add_inplace. rewrite decide_True by done.
  assert (forallb (λ '(o, d), bool_decide (d = o ∨ d = 1))
                  (zip (reverse x) (reverse x)) = true) as ->; [|done].
  induction (reverse x) as [|d l IH]; simpl; [done|].
  rewrite IH, bool_decide_eq_true_2 by (by left). done.
Qed.

Lemma batch_norm_shape training f n h w :
  (training = true → n * h * w ≠ 1) →
  layer_shape training (BatchNorm2d f) [n; f; h; w] = Ok [n; f; h; w].
Proof.
  intros Htrain. simpl. rewrite decide_True by done.
  destruct training; simpl; [|done].
  rewrite bool_decide_eq_false_2 by auto. done.
Qed.

Lemma relu_shape training x : layer_shape training ReLU x = Ok x.
Proof. reflexivity. Qed.

Lemma conv_shape training cin cout k s p n h w :
  k ≤ h + 2 * p → k ≤ w + 2 * p →
  layer_shape training (Conv2d cin cout k s p) [n; cin; h; w]
  = Ok [n; cout; window_out h k s p; window_out w k s p].
Proof. intros Hh Hw. simpl. by rewrite decide_True. Qed.

Lemma identity_shortcut in_channels out_channels stride :
  BasicBlock.shortcut (BasicBlock.__init__ in_channels out_channels stride) = []
  ↔ stride = 1 ∧ in_channels = out_channels.
Proof.
  unfold BasicBlock.__init__. cbn [BasicBlock.shortcut].
  destruct (decide (stride ≠ 1 ∨ in_channels ≠ out_channels)) as [Hproj|Hid].
  - split; [done|]. intros [-> ->]. by destruct Hproj.
  - split; [|done]. intros _.
    split; apply dec_stable; intros ?; apply Hid; auto.
Qed.

Lemma basic_block_forward_ok training in_channels out_channels stride n h w :
  1 ≤ stride → 1 ≤ h → 1 ≤ w →
  (training = true → n * strided h stride * strided w stride ≠ 1) →
  BasicBlock.forward training
    (BasicBlock.__init__ in_channels out_channels stride)
    [n; in_channels; h; w]
  = Ok [n; out_channels; strided h stride; strided w stride].
Proof.
  intros Hs Hh Hw Htrain.
  pose proof (strided_positive h stride Hs Hh) as Hh'.
  pose proof (strided_positive w stride Hs Hw) as Hw'.
  unfold BasicBlock.forward.
  destruct (decide (BasicBlock.shortcut
                      (BasicBlock.__init__ in_channels out_channels stride)
                    = [])) as [Hid|Hproj].
  - rewrite Hid. apply identity_shortcut in Hid as [-> ->].
    unfold BasicBlock.__init__.
    cbn [BasicBlock.conv1 BasicBlock.bn1 BasicBlock.relu BasicBlock.conv2
         BasicBlock.bn2].
    rewrite conv_shape by lia. rewrite !window_out_3_1. cbn [mbind result_bind].
    rewrite batch_norm_shape by done. cbn [mbind result_bind].
    rewrite relu_shape. cbn [mbind result_bind].
    rewrite conv_shape by lia. rewrite !window_out_3_1, !strided_1.
    cbn [mbind result_bind].
    rewrite batch_norm_shape by (by rewrite !strided_1 in Htrain).
    cbn [mbind result_bind].
    unfold sequential. cbn [for_each mbind result_bind].
    rewrite add_inplace_same. reflexivity.
  - unfold BasicBlock.__init__ in *.
    cbn [BasicBlock.conv1 BasicBlock.bn1 BasicBlock.relu BasicBlock.conv2
         BasicBlock.bn2 BasicBlock.shortcut] in *.
    destruct (decide (stride ≠ 1 ∨ in_channels ≠ out_channels)); [|done].
    rewrite conv_shape by lia. rewrite !window_out_3_1. cbn [mbind result_bind].
    rewrite batch_norm_shape by done. cbn [mbind result_bind].
    rewrite relu_shape. cbn [mbind result_bind].
    rewrite conv_shape by lia. rewrite !window_out_3_1, !strided_1.
    cbn [mbind result_bind].
    rewrite batch_norm_shape by done. cbn [mbind result_bind].
    unfold sequential. cbn [for_each].
    rewrite conv_shape by lia. rewrite !window_out_1_0.
    cbn [mbind result_bind].
    rewrite batch_norm_shape by done. cbn [mbind result_bind].
    rewrite add_inplace_same. reflexivity.
Qed.

(** X24: a block built for [in_channels], [out_channels] and a stride of at
    least 1 accepts every batch with [in_channels] channels and a height and
    width of at least 1 (in training mode, unless it would leave a single
    value per channel): the two branches of the residual sum always have the
    same shape, and the result has [out_channels] channels and a height and
    width of [floor((n - 1) / stride) + 1].  With the identity shortcut the
    shape is unchanged. *)
Theorem basic_block_forward_shape (training : bool)
    (in_channels out_channels stride n h w : Z) :
  1 ≤ stride → 1 ≤ h → 1 ≤ w →
  (training = true → n * strided h stride * strided w stride ≠ 1) →
  let block := BasicBlock.__init__ in_channels out_channels stride in
  BasicBlock.forward training block [n; in_channels; h; w]
  = Ok [n; out_channels; strided h stride; strided w stride]
  ∧ (BasicBlock.shortcut block = [] →
     BasicBlock.forward training block [n; in_channels; h; w]
     = Ok [n; in_channels; h; w]).
Proof.
  intros Hs Hh Hw Htrain block. unfold block. split.
  - by apply basic_block_forward_ok.
  - intros Hid. rewrite basic_block_forward_ok by done.
    apply identity_shortcut in Hid as [-> ->]. by rewrite !strided_1.
Qed.

Lemma basic_block_forward_shape_witness :
  1 ≤ 2 ∧ 1 ≤ 56 ∧ 1 ≤ 56
  ∧ (true = true → 4 * strided 56 2 * strided 56 2 ≠ 1)
  ∧ BasicBlock.forward true (BasicBlock.__init__ 64 128 2) [4; 64; 56; 56]
    = Ok [4; 128; strided 56 2; strided 56 2]
  ∧ (BasicBlock.shortcut (BasicBlock.__init__ 64 128 2) = [] →
     BasicBlock.forward true (BasicBlock.__init__ 64 128 2) [4; 64; 56; 56]
     = Ok [4; 64; 56; 56]).
Proof.
  assert (true = true → 4 * strided 56 2 * strided 56 2 ≠ 1) as Htrain
    by (intros _; vm_compute; discriminate).
  split; [lia|]. split; [lia|]. split; [lia|]. split; [exact Htrain|].
  apply (basic_block_forward_shape true 64 128 2 4 56 56); [lia | lia | lia|].
  exact Htrain.
Defined.


Lemma ResNet18_init num_classes :
  ResNet18.__init__ num_classes
  = {| ResNet18.num_classes := num_classes;
       ResNet18.in_channels := 512;
       ResNet18.conv1 := Conv2d 3 64 7 2 1;
       ResNet18.bn1 := BatchNorm2d 64;
       ResNet18.relu := ReLU;
       ResNet18.maxpool := MaxPool2d 3 2 1;
       ResNet18.layer1 :=
         [BasicBlock.__init__ 64 64 1; BasicBlock.__init__ 64 64 1];
       ResNet18.layer2 :=
         [BasicBlock.__init__ 64 128 2; BasicBlock.__init__ 128 128 1];
       ResNet18.layer3 :=
         [BasicBlock.__init__ 128 256 2; BasicBlock.__init__ 256 256 1];
       ResNet18.layer4 :=
         [BasicBlock.__init__ 256 512 2; BasicBlock.__init__ 512 512 1];
       ResNet18.avgpool := AdaptiveAvgPool2d 1 1;
       ResNet18.fc := Linear 512 num_classes |}.
Proof. reflexivity. Qed.

Lemma two_blocks_shape training in_channels out_channels stride n h w :
  1 ≤ stride → 1 ≤ h → 1 ≤ w → (training = true → 2 ≤ n) →
  ResNet18.blocks training
    [BasicBlock.__init__ in_channels out_channels stride;
     BasicBlock.__init__ out_channels out_channels 1]
    [n; in_channels; h; w]
  = Ok [n; out_channels; strided h stride; strided w stride].
Proof.
  intros Hs Hh Hw Htrain.
  pose proof (strided_positive h stride Hs Hh) as Hh'.
  pose proof (strided_positive w stride Hs Hw) as Hw'.
  unfold ResNet18.blocks. cbn [for_each].
  rewrite basic_block_forward_ok; [|done..|intros Ht; specialize (Htrain Ht); nia].
  cbn [mbind result_bind].
  rewrite basic_block_forward_ok;
    [|lia|done..|intros Ht; specialize (Htrain Ht); rewrite !strided_1; nia].
  cbn [mbind result_bind]. by rewrite !strided_1.
Qed.

(** X25: in evaluation mode, and in training mode on batches of at least two
    images, [ResNet18.forward] returns a result on a batch [[N; C; H; W]]
    exactly when the images have 3 channels and a height and width of at
    least 5 and the batch is not empty; the result then has one row per image
    and [num_classes] columns, whatever the image size. *)
Theorem resnet18_forward_shape (training : bool)
    (num_classes n c h w : Z) (out : Shape) :
  0 ≤ n → (training = true → 2 ≤ n) →
  ResNet18.forward training (ResNet18.__init__ num_classes) [n; c; h; w]
  = Ok out
  ↔ c = 3 ∧ 5 ≤ h ∧ 5 ≤ w ∧ 1 ≤ n ∧ out = [n; num_classes].
Proof.
  intros Hn Htrain. rewrite ResNet18_init. unfold ResNet18.forward.
  cbn [ResNet18.conv1 ResNet18.bn1 ResNet18.relu ResNet18.maxpool
       ResNet18.layer1 ResNet18.layer2 ResNet18.layer3 ResNet18.layer4
       ResNet18.avgpool ResNet18.fc].
  destruct (decide (c = 3 ∧ 5 ≤ h ∧ 5 ≤ w)) as [(-> & Hh & Hw)|Hbad].
  - rewrite conv_shape by lia. cbn [mbind result_bind].
    assert (1 ≤ window_out h 7 2 1) as Hh0.
    { unfold window_out. assert (0 ≤ (h + 2 * 1 - 7) `div` 2)
        by (apply Z.div_pos; lia). lia. }
    assert (1 ≤ window_out w 7 2 1) as Hw0.
    { unfold window_out. assert (0 ≤ (w + 2 * 1 - 7) `div` 2)
        by (apply Z.div_pos; lia). lia. }
    set (h0 := window_out h 7 2 1) in *. set (w0 := window_out w 7 2 1) in *.
    rewrite batch_norm_shape by (intros Ht; specialize (Htrain Ht); nia).
    cbn [mbind result_bind]. rewrite relu_shape. cbn [mbind result_bind].
    assert (1 ≤ strided h0 2) as Hh1 by (apply strided_positive; lia).
    assert (1 ≤ strided w0 2) as Hw1 by (apply strided_positive; lia).
    assert (layer_shape training (MaxPool2d 3 2 1) [n; 64; h0; w0]
            = Ok [n; 64; strided h0 2; strided w0 2]) as ->.
    { cbn [layer_shape]. rewrite !window_out_3_1. by rewrite decide_True. }
    cbn [mbind result_bind].
    set (h1 := strided h0 2) in *. set (w1 := strided w0 2) in *.
    rewrite two_blocks_shape by (done || lia). cbn [mbind result_bind].
    rewrite !strided_1.
    rewrite two_blocks_shape by (done || lia). cbn [mbind result_bind].
    assert (1 ≤ strided h1 2) as Hh2 by (apply strided_positive; lia).
    assert (1 ≤ strided w1 2) as Hw2 by (apply strided_positive; lia).
    set (h2 := strided h1 2) in *. set (w2 := strided w1 2) in *.
    rewrite two_blocks_shape by (done || lia). cbn [mbind result_bind].
    assert (1 ≤ strided h2 2) as Hh3 by (apply strided_positive; lia).
    assert (1 ≤ strided w2 2) as Hw3 by (apply strided_positive; lia).
    set (h3 := strided h2 2) in *. set (w3 := strided w2 2) in *.
    rewrite two_blocks_shape by (done || lia). cbn [mbind result_bind].
    assert (1 ≤ strided h3 2) as Hh4 by (apply strided_positive; lia).
    assert (1 ≤ strided w3 2) as Hw4 by (apply strided_positive; lia).
    cbn [layer_shape]. rewrite decide_True by lia. cbn [mbind result_bind].
    unfold view_batch_rest. cbn [foldr].
    destruct (decide (n * (512 * (1 * (1 * 1))) = 0)) as [Hzero|Hpos].
    + cbn [mbind result_bind]. split; [done|]. intros (_ & _ & _ & ? & _). lia.
    + cbn [mbind result_bind]. rewrite decide_True by lia.
      split.
      * intros [= <-]. repeat split; (done || lia).
      * intros (_ & _ & _ & _ & ->). done.
  - assert (layer_shape training (Conv2d 3 64 7 2 1) [n; c; h; w]
            = Raise RuntimeError) as ->.
    { cbn [layer_shape]. rewrite decide_False; [done|].
      intros (? & ? & ?). apply Hbad. repeat split; (done || lia). }
    cbn [mbind result_bind]. split; [done|].
    intros (? & ? & ? & _). destruct Hbad. done.
Qed.

Lemma resnet18_forward_shape_witness :
  ResNet18.forward true (ResNet18.__init__ 7) [32; 3; 224; 224] = Ok [32; 7].
Proof.
  apply (resnet18_forward_shape true 7 32 3 224 224 [32; 7]);
    [lia | intros _; lia |].
  repeat split; lia.
Defined.


Lemma max_pool_shape training k s p n c h w :
  1 ≤ window_out h k s p → 1 ≤ window_out w k s p →
  layer_shape training (MaxPool2d k s p) [n; c; h; w]
  = Ok [n; c; window_out h k s p; window_out w k s p].
Proof. intros Hh Hw. cbn [layer_shape]. by rewrite decide_True. Qed.

Lemma conv_shape_inv training cin cout k s p n c h w out :
  layer_shape training (Conv2d cin cout k s p) [n; c; h; w] = Ok out →
  c = cin ∧ k ≤ h + 2 * p ∧ k ≤ w + 2 * p.
Proof. cbn [layer_shape]. by case_decide. Qed.

Lemma max_pool_shape_inv training k s p n c h w out :
  layer_shape training (MaxPool2d k s p) [n; c; h; w] = Ok out →
  1 ≤ window_out h k s p ∧ 1 ≤ window_out w k s p.
Proof. cbn [layer_shape]. by case_decide. Qed.

Lemma bind_Ok_inv {A B} (m : result A) (k : A → result B) (b : B) :
  m ≫= k = Ok b → ∃ a, m = Ok a ∧ k a = Ok b.
Proof. destruct m as [a|e]; [|done]. intros H. by exists a. Qed.

Lemma small_window n : 1 ≤ window_out n 2 2 0 ↔ 2 ≤ n.
Proof. unfold window_out. split; intros H; Z.div_mod_to_equations; lia. Qed.

(** X26: [SmallNetwork.forward] returns a result on a batch [[N; C; H; W]]
    exactly when the images have 3 channels and the feature map left by the
    convolutions and poolings, of [floor((H - 11) / 2) + 1] by
    [floor((W - 11) / 2) + 1] values in each of 128 channels, holds the 10368
    values the first linear layer was built for; the result then has one row
    per image and 7 columns.  A square image is accepted exactly when its side
    is 27 or 28. *)
Theorem small_network_forward_shape (training : bool) (n c h w : Z)
    (out : Shape) :
  (SmallNetwork.forward training SmallNetwork.__init__ [n; c; h; w] = Ok out
   ↔ c = 3 ∧ 11 ≤ h ∧ 11 ≤ w
     ∧ 128 * (((h - 11) `div` 2 + 1) * ((w - 11) `div` 2 + 1)) = 10368
     ∧ out = [n; 7])
  ∧ (SmallNetwork.forward training SmallNetwork.__init__ [n; c; h; h] = Ok out
     ↔ c = 3 ∧ (h = 27 ∨ h = 28) ∧ out = [n; 7]).
Proof.
  assert (∀ h w,
    SmallNetwork.forward training SmallNetwork.__init__ [n; c; h; w] = Ok out
    ↔ c = 3 ∧ 11 ≤ h ∧ 11 ≤ w
      ∧ 128 * (((h - 11) `div` 2 + 1) * ((w - 11) `div` 2 + 1)) = 10368
      ∧ out = [n; 7]) as Hgeneral.
  { clear h w. intros h w.
    unfold SmallNetwork.forward, SmallNetwork.__init__.
    cbn [SmallNetwork.conv1 SmallNetwork.act1 SmallNetwork.conv2
         SmallNetwork.act2 SmallNetwork.pool1 SmallNetwork.conv3
         SmallNetwork.act3 SmallNetwork.pool2 SmallNetwork.flat
         SmallNetwork.fc1 SmallNetwork.fc2 SmallNetwork.fc3].
    destruct (decide (c = 3 ∧ 11 ≤ h ∧ 11 ≤ w)) as [(-> & Hh & Hw)|Hbad].
    - rewrite conv_shape by lia. cbn [mbind result_bind].
      rewrite relu_shape. cbn [mbind result_bind].
      replace (window_out h 3 1 0) with (h - 2)
        by (unfold window_out; rewrite Z.div_1_r; lia).
      replace (window_out w 3 1 0) with (w - 2)
        by (unfold window_out; rewrite Z.div_1_r; lia).
      rewrite conv_shape by lia. cbn [mbind result_bind].
      rewrite relu_shape. cbn [mbind result_bind].
      replace (window_out (h - 2) 5 1 0) with (h - 6)
        by (unfold window_out; rewrite Z.div_1_r; lia).
      replace (window_out (w - 2) 5 1 0) with (w - 6)
        by (unfold window_out; rewrite Z.div_1_r; lia).
      assert (window_out (h - 6) 2 1 0 = h - 7) as Eh
        by (unfold window_out; rewrite Z.div_1_r; lia).
      assert (window_out (w - 6) 2 1 0 = w - 7) as Ew
        by (unfold window_out; rewrite Z.div_1_r; lia).
      rewrite max_pool_shape by lia. rewrite Eh, Ew. cbn [mbind result_bind].
      rewrite conv_shape by lia. cbn [mbind result_bind].
      rewrite relu_shape. cbn [mbind result_bind].
      replace (window_out (h - 7) 3 1 0) with (h - 9)
        by (unfold window_out; rewrite Z.div_1_r; lia).
      replace (window_out (w - 7) 3 1 0) with (w - 9)
        by (unfold window_out; rewrite Z.div_1_r; lia).
      rewrite max_pool_shape by (apply small_window; lia).
      cbn [mbind result_bind flatten_from_1 foldr].
      replace (window_out (h - 9) 2 2 0) with ((h - 11) `div` 2 + 1)
        by (unfold window_out; do 2 f_equal; lia).
      replace (window_out (w - 9) 2 2 0) with ((w - 11) `div` 2 + 1)
        by (unfold window_out; do 2 f_equal; lia).
      rewrite Z.mul_1_r. cbn [layer_shape].
      destruct (decide (128 * (((h - 11) `div` 2 + 1)
                               * ((w - 11) `div` 2 + 1)) = 10368))
        as [Hfeatures|Hfeatures].
      + cbn [mbind result_bind]. rewrite decide_True by done.
        cbn [mbind result_bind]. rewrite decide_True by done.
        cbn [mbind result_bind].
        split; [intros [= <-]; done | intros (_ & _ & _ & _ & ->); done].
      + cbn [mbind result_bind]. split; [done|].
        intros (_ & _ & _ & ? & _). done.
    - split; [|intros (? & ? & ? & _); by destruct Hbad].
      intros Hok. destruct Hbad.
      apply bind_Ok_inv in Hok as (x1 & H1 & Hok).
      pose proof (conv_shape_inv _ _ _ _ _ _ _ _ _ _ _ H1) as (-> & Hh1 & Hw1).
      rewrite conv_shape in H1 by done. injection H1 as <-.
      rewrite relu_shape in Hok. cbn [mbind result_bind] in Hok.
      apply bind_Ok_inv in Hok as (x2 & H2 & Hok).
      pose proof (conv_shape_inv _ _ _ _ _ _ _ _ _ _ _ H2) as (_ & Hh2 & Hw2).
      rewrite conv_shape in H2 by done. injection H2 as <-.
      rewrite relu_shape in Hok. cbn [mbind result_bind] in Hok.
      apply bind_Ok_inv in Hok as (x3 & H3 & Hok).
      pose proof (max_pool_shape_inv _ _ _ _ _ _ _ _ _ H3) as (Hh3 & Hw3).
      rewrite max_pool_shape in H3 by done. injection H3 as <-.
      apply bind_Ok_inv in Hok as (x4 & H4 & Hok).
      pose proof (conv_shape_inv _ _ _ _ _ _ _ _ _ _ _ H4) as (_ & Hh4 & Hw4).
      rewrite conv_shape in H4 by done. injection H4 as <-.
      rewrite relu_shape in Hok. cbn [mbind result_bind] in Hok.
      apply bind_Ok_inv in Hok as (x5 & H5 & Hok).
      pose proof (max_pool_shape_inv _ _ _ _ _ _ _ _ _ H5) as (Hh5 & Hw5).
      clear Hok H5. unfold window_out in *.
      rewrite ?Z.div_1_r in *.
      split; [done|]. split; Z.div_mod_to_equations; lia. }
  split; [apply Hgeneral|].
  rewrite Hgeneral. split.
  - intros (-> & Hh & _ & Hfeatures & ->). split; [done|]. split; [|done].
    assert (0 ≤ (h - 11) `div` 2) by (apply Z.div_pos; lia).
    assert ((h - 11) `div` 2 + 1 = 9) as Hside by nia.
    Z.div_mod_to_equations. lia.
  - intros (-> & Hside & ->).
    assert ((h - 11) `div` 2 = 8) as Hdiv
      by (destruct Hside as [-> | ->]; reflexivity).
    rewrite Hdiv. repeat split; (done || lia).
Qed.
